(** * archive-bot: the editor page engine (src/util/editor)

    A shallow embedding of the page hierarchy in [util/editor/base.py],
    [hierarchy.py], [menu.py] and [closable.py].

    Python objects live in a store indexed by their identity; every
    method becomes a computation in a state-and-exception monad over that
    store.  Everything the host (discord.py, asyncio) would observe is
    appended to a trace. *)

From stdpp Require Import gmap list strings.
From Stdlib Require Import ZArith Lia Ascii.

Local Open Scope Z_scope.
Local Open Scope nat_scope.

(** ** Identities *)

(** [id(obj)] of a page, component, guard or task object. *)
Abbreviation page_id := nat (only parsing).
Abbreviation item_id := nat (only parsing).
Abbreviation guard_id := nat (only parsing).
Abbreviation task_id := nat (only parsing).
(** [id(cls)] of a page class; [_MenuSelect] sends it as [str(id(child))]
    and reads it back with [int(...)], so it is a Python integer. *)
Abbreviation class_id := Z (only parsing).

(** ** Exceptions and results *)

Inductive exn :=
| KeyError
| ValueError
| IndexError
| TypeError
| AttributeError
| StopIteration
| RuntimeError
| UserError (n : nat).

Inductive outcome (A : Type) :=
| Ok (a : A)
| Raised (e : exn).
Arguments Ok {A} a.
Arguments Raised {A} e.

Global Instance exn_eq_dec : EqDecision exn.
Proof. solve_decision. Defined.

(** What a callback hands back to the host. *)
Inductive pyval :=
| PyNone
| PyBool (b : bool)
| PyPage (p : page_id).

(** ** Callables *)

(** Bodies of the component callbacks. *)
Inductive code :=
| close_interaction          (* ClosableEditor._close_interaction *)
| back_to_parent             (* SubmenuPage._back_to_parent *)
| back_to_top                (* SubmenuPage._back_to_top *)
| menu_select_callback       (* _MenuSelect.callback *)
| user_code (n : nat).       (* a callback declared by a concrete page class *)

(** The two attributes [disable_update] may leave on a function;
    [None] is [hasattr(...) == False]. *)
Record attrs := Attrs {
  editor_disable_update : option bool;
  editor_disable_message_update : option bool;
}.

Definition no_attrs : attrs := Attrs None None.

(** Class-level callables: a coroutine function, or a
    [disable_when_processing] object built around one.  The guard object
    is created once, when the class body is evaluated, and is named by
    its identity [g]. *)
Inductive pyfunc :=
| Func (body : code) (a : attrs)
| Guard (g : guard_id) (func : pyfunc) (a : attrs).

(** What an item holds in [item.callback]: the class-level callable bound
    to its page by the host library (it is called as
    [func(view, interaction, item)] and exposes the callable's
    attributes), or the closure [_wraps_update] returns. *)
Inductive callback :=
| Bound (f : pyfunc) (self : page_id)
| Wrapper (editor : page_id) (func : callback).

Definition pyfunc_attrs (f : pyfunc) : attrs :=
  match f with
  | Func _ a => a
  | Guard _ _ a => a
  end.

(** [functools.wraps] copies the wrapped callable's [__dict__]. *)
Fixpoint callback_attrs (c : callback) : attrs :=
  match c with
  | Bound f _ => pyfunc_attrs f
  | Wrapper _ f => callback_attrs f
  end.

(** [disable_update(func, disable_update=..., disable_message_update=...)] *)
Definition disable_update (du dmu : bool) (decorator_func : pyfunc) : pyfunc :=
  let a := Attrs (Some du) (Some dmu) in
  match decorator_func with
  | Func b _ => Func b a
  | Guard g f _ => Guard g f a
  end.

(** ** Classes *)

Inductive base :=
| EditorPage
| SwitchablePage
| ChildPage
| ParentPage
| MenuPage
| SubmenuPage
| ClosableEditor.

Global Instance base_eq_dec : EqDecision base.
Proof. solve_decision. Defined.

Definition base_mro (b : base) : list base :=
  match b with
  | EditorPage => [EditorPage]
  | SwitchablePage => [SwitchablePage; EditorPage]
  | ChildPage => [ChildPage; SwitchablePage; EditorPage]
  | ParentPage => [ParentPage; SwitchablePage; EditorPage]
  | MenuPage => [MenuPage; ParentPage; SwitchablePage; EditorPage]
  | SubmenuPage => [SubmenuPage; ChildPage; SwitchablePage; EditorPage]
  | ClosableEditor => [ClosableEditor; EditorPage]
  end.

(** A concrete page class: its bases, its [CHILDREN] tuple, the component
    callbacks its own body declares, and the [close_timeout_message]
    keyword of [ClosableEditor.__init_subclass__]. *)
Record class_def := ClassDef {
  cls_bases : list base;
  cls_CHILDREN : list class_id;
  cls_components : list pyfunc;
  cls_close_timeout_message : option string;
}.

Definition issubclass (cd : class_def) (b : base) : bool :=
  existsb (fun b' => bool_decide (b ∈ base_mro b')) (cls_bases cd).

(** [ClosableEditor.__init_subclass__] *)
Definition _close_timeout_message (cd : class_def) : string :=
  match cls_close_timeout_message cd with
  | None => ":sleeping: Modal timed out"
  | Some m => m
  end.

(** [ClosableEditor._close_interaction] as the class holds it:
    [@discord.ui.button(...)] over [@disable_update(True, True)]. *)
Definition close_func : pyfunc :=
  disable_update true true (Func close_interaction no_attrs).

(** The decorated component methods an instance of the class gets items
    for: the inherited ones, then the class's own. *)
Definition class_components (cd : class_def) : list pyfunc :=
  (if issubclass cd ClosableEditor then [close_func] else []) ++
  (if issubclass cd SubmenuPage
   then [Func back_to_parent no_attrs; Func back_to_top no_attrs] else []) ++
  cls_components cd.

(** ** The object store *)

Record Item := MkItem {
  disabled : bool;
  item_callback : callback;
}.

Record Page := MkPage {
  klass : class_id;
  message : option nat;
  embed : option nat;
  children : list item_id;
  stopped : bool;                          (* View.is_finished() *)
  parent : option page_id;                 (* ChildPage.parent *)
  _child_instances : gmap Z page_id;       (* ParentPage._child_instances *)
  ending_task : option task_id;            (* ClosableEditor.__ending_task *)
}.

(** State of one [disable_when_processing] object. *)
Record GuardState := MkGuard {
  disabled_items : list item_id;
  guard_editor : option page_id;
}.

(** An [asyncio.Task] running [page.on_end()]. *)
Record Task := MkTask {
  task_page : page_id;
  task_done : bool;
}.

Inductive event :=
| EvUpdate (p : page_id)                   (* EditorPage.update entered *)
| EvUpdateMessage (p : page_id)            (* EditorPage.update_message entered *)
| EvWarning (p : page_id)                  (* LOGGER.warning: no message set *)
| EvMessageEdit (m : nat) (p : page_id)    (* message.edit(..., view=p) *)
| EvSendModal (p : page_id)                (* interaction.response.send_modal *)
| EvFollowup (s : string)                  (* interaction.followup.send *)
| EvSendMessage (s : string)               (* interaction.response.send_message *)
| EvDefer                                  (* interaction.response.defer *)
| EvLogError (s : string)                  (* LOGGER.error *)
| EvOnClose (p : page_id)                  (* ClosableEditor.on_close entered *)
| EvOnEnd (p : page_id)                    (* ClosableEditor.on_end entered *)
| EvUser (n : nat).                        (* anything a user callback reports *)

Global Instance event_eq_dec : EqDecision event.
Proof. solve_decision. Defined.

Record world := World {
  pages : gmap nat Page;
  items : gmap nat Item;
  guards : gmap nat GuardState;
  tasks : gmap nat Task;
  next_page : page_id;
  next_item : item_id;
  next_task : task_id;
  trace : list event;
}.

(** What the host delivers with one interaction: the selected values of
    a select component, and whether a modal opened from it will elapse
    ([Modal.wait()] returning [True]) instead of being submitted. *)
Record interaction := Interaction {
  values : list string;
  modal_timed_out : bool;
}.

(** ** The monad *)

Definition M (A : Type) : Type := world → outcome A * world.

Definition ret {A} (a : A) : M A := fun w => (Ok a, w).
Definition raise {A} (e : exn) : M A := fun w => (Raised e, w).
Definition bind {A B} (m : M A) (k : A → M B) : M B :=
  fun w => match m w with
           | (Ok a, w') => k a w'
           | (Raised e, w') => (Raised e, w')
           end.

(** [try: m except e: handler] *)
Definition try_except {A} (m : M A) (e : exn) (handler : M A) : M A :=
  fun w => match m w with
           | (Raised e', w') => if decide (e' = e) then handler w' else (Raised e', w')
           | r => r
           end.

(** [try: m finally: fin], also the shape of [async with]:
    the release step runs on either outcome, then the outcome of [m]
    stands unless the release step itself raises. *)
Definition try_finally {A} (m : M A) (fin : M unit) : M A :=
  fun w => match m w with
           | (r, w') => match fin w' with
                        | (Ok _, w'') => (r, w'')
                        | (Raised e, w'') => (Raised e, w'')
                        end
           end.

Declare Scope py_scope.
Delimit Scope py_scope with py.
Notation "x <- m ;; k" := (bind m (fun x => k))
  (at level 100, m at next level, right associativity) : py_scope.
Notation "m ;;; k" := (bind m (fun _ => k))
  (at level 100, right associativity) : py_scope.
Local Open Scope py_scope.

Definition log (e : event) : M unit :=
  fun w => (Ok tt, World (pages w) (items w) (guards w) (tasks w)
                         (next_page w) (next_item w) (next_task w) (trace w ++ [e])).

Definition get_page (p : page_id) : M Page :=
  fun w => match pages w !! p with
           | Some pg => (Ok pg, w)
           | None => (Raised AttributeError, w)
           end.

Definition get_item (i : item_id) : M Item :=
  fun w => match items w !! i with
           | Some it => (Ok it, w)
           | None => (Raised AttributeError, w)
           end.

Definition set_page (p : page_id) (pg : Page) : M unit :=
  fun w => (Ok tt, World (<[p := pg]> (pages w)) (items w) (guards w) (tasks w)
                         (next_page w) (next_item w) (next_task w) (trace w)).

Definition set_item (i : item_id) (it : Item) : M unit :=
  fun w => (Ok tt, World (pages w) (<[i := it]> (items w)) (guards w) (tasks w)
                         (next_page w) (next_item w) (next_task w) (trace w)).

Definition set_guard (g : guard_id) (gs : GuardState) : M unit :=
  fun w => (Ok tt, World (pages w) (items w) (<[g := gs]> (guards w)) (tasks w)
                         (next_page w) (next_item w) (next_task w) (trace w)).

(** A guard object that has not run yet: [disabled_items = []], no
    [editor] attribute. *)
Definition get_guard (g : guard_id) : M GuardState :=
  fun w => (Ok (default (MkGuard [] None) (guards w !! g)), w).

(** [item.disabled = b] *)
Definition set_disabled (i : item_id) (b : bool) : M unit :=
  it <- get_item i ;;
  set_item i (MkItem b (item_callback it)).

(** [for x in l: body(x)] *)
Fixpoint for_each {A} (l : list A) (body : A → M unit) : M unit :=
  match l with
  | [] => ret tt
  | x :: l' => body x ;;; for_each l' body
  end.

Definition alloc_item (it : Item) : M item_id :=
  fun w => (Ok (next_item w),
            World (pages w) (<[next_item w := it]> (items w)) (guards w) (tasks w)
                  (next_page w) (S (next_item w)) (next_task w) (trace w)).

Definition alloc_page (pg : Page) : M page_id :=
  fun w => (Ok (next_page w),
            World (<[next_page w := pg]> (pages w)) (items w) (guards w) (tasks w)
                  (S (next_page w)) (next_item w) (next_task w) (trace w)).

(** [asyncio.create_task(page.on_end())] *)
Definition create_task (p : page_id) : M task_id :=
  fun w => (Ok (next_task w),
            World (pages w) (items w) (guards w) (<[next_task w := MkTask p false]> (tasks w))
                  (next_page w) (next_item w) (S (next_task w)) (trace w)).

(** [switch] takes a page type or a page object. *)
Inductive target :=
| TType (c : class_id)
| TObject (p : page_id).

(** What [__await__] returns to the event loop. *)
Inductive awaitable :=
| task_await (t : task_id)       (* Task.__await__() *)
| _never_generator.              (* yield from () *)

(** One resumption of an awaiting caller. *)
Inductive resumption :=
| Suspended
| Resolved (v : pyval).

(** [int(s)] on the decimal literals the select component can carry:
    an optional sign and ASCII digits. *)
Definition digit_of (a : Ascii.ascii) : option Z :=
  let n := Ascii.nat_of_ascii a in
  if bool_decide (48 ≤ n ≤ 57) then Some (Z.of_nat (n - 48)) else None.

Fixpoint digits_value (acc : Z) (s : string) : option Z :=
  match s with
  | EmptyString => Some acc
  | String a s' =>
      match digit_of a with
      | Some d => digits_value (10 * acc + d)%Z s'
      | None => None
      end
  end.

Definition py_int (s : string) : option Z :=
  match s with
  | EmptyString => None
  | String "-"%char (String a s') => Z.opp <$> digits_value 0 (String a s')
  | String "+"%char (String a s') => digits_value 0 (String a s')
  | String a s' => digits_value 0 (String a s')
  end.

(** ** The methods *)

Section Editor.

(** The class table, and the bodies of the callbacks that concrete
    page classes declare. *)
Variable classes : class_id → class_def.
Variable user_body : nat → page_id → interaction → M pyval.

(** *** base.py *)

Definition EditorPage_update (self : page_id) : M unit :=
  log (EvUpdate self).

Definition EditorPage_update_message (self : page_id) : M unit :=
  log (EvUpdateMessage self) ;;;
  pg <- get_page self ;;
  match message pg with
  | None => log (EvWarning self)
  | Some m => log (EvMessageEdit m self)
  end.

Definition EditorPage_set_component_state (self : page_id) (state : bool) : M unit :=
  pg <- get_page self ;;
  for_each (children pg) (fun item => set_disabled item state) ;;;
  EditorPage_update_message self.

Definition _wraps_update (editor : page_id) (func : callback) : callback :=
  Wrapper editor func.

(** [View.__init__]: one item per decorated component method. *)
Fixpoint View_init_children (self : page_id) (fs : list pyfunc) : M (list item_id) :=
  match fs with
  | [] => ret []
  | f :: fs' =>
      i <- alloc_item (MkItem false (Bound f self)) ;;
      l <- View_init_children self fs' ;;
      ret (i :: l)
  end.

Definition EditorPage_init (self : page_id) : M unit :=
  pg <- get_page self ;;
  l <- View_init_children self (class_components (classes (klass pg))) ;;
  set_page self (MkPage (klass pg) (message pg) (embed pg) l (stopped pg)
                        (parent pg) (_child_instances pg) (ending_task pg)) ;;;
  for_each l (fun item =>
    it <- get_item item ;;
    set_item item (MkItem (disabled it) (_wraps_update self (item_callback it)))).

(** [View.add_item] *)
Definition add_item (self : page_id) (item : item_id) : M unit :=
  pg <- get_page self ;;
  set_page self (MkPage (klass pg) (message pg) (embed pg) (children pg ++ [item])
                        (stopped pg) (parent pg) (_child_instances pg) (ending_task pg)).

(** [MenuPage.__init__] after its [super().__init__] call. *)
Definition MenuPage_init (self : page_id) : M unit :=
  CHILDREN_SELECT <- alloc_item (MkItem false (Bound (Func menu_select_callback no_attrs) self)) ;;
  add_item self CHILDREN_SELECT.

(** [cls(message, embed)] or [cls(message, embed, parent=...)]:
    [ChildPage.__init__] has the keyword-only [parent], no other
    [__init__] accepts it.  The attribute assignments of the
    [__init__] chain ([self.parent], [self._child_instances = {}],
    [self.__ending_task = None], [self.message], [self.embed]) are the
    fields of the fresh object. *)
Definition construct (cls : class_id) (message embed : option nat)
    (parent : option page_id) : M page_id :=
  let cd := classes cls in
  if bool_decide (issubclass cd ChildPage = bool_decide (is_Some parent)) then
    self <- alloc_page (MkPage cls message embed [] false parent ∅ None) ;;
    EditorPage_init self ;;;
    (if issubclass cd MenuPage then MenuPage_init self else ret tt) ;;;
    ret self
  else raise TypeError.

(** *** hierarchy.py *)

Definition SwitchablePage_switch (self : page_id) (new_editor : target) : M page_id :=
  editor_object <-
    match new_editor with
    | TType cls =>
        pg <- get_page self ;;
        construct cls (message pg) (embed pg) None
    | TObject p => ret p
    end ;;
  EditorPage_update editor_object ;;;
  EditorPage_update_message editor_object ;;;
  ret editor_object.

Definition ChildPage_switch_to_parent (self : page_id) : M unit :=
  pg <- get_page self ;;
  match parent pg with
  | Some p => SwitchablePage_switch self (TObject p) ;;; ret tt
  | None => raise AttributeError
  end.

Definition ParentPage_get_child (self : page_id) (child_type : class_id) : M page_id :=
  pg <- get_page self ;;
  if negb (bool_decide (child_type ∈ cls_CHILDREN (classes (klass pg)))) then
    raise KeyError
  else
    try_except
      (match _child_instances pg !! child_type with
       | Some child => ret child
       | None => raise KeyError
       end)
      KeyError
      (construct child_type (message pg) (embed pg) (Some self)).

Definition ParentPage_switch_to_child (self : page_id) (child_type : class_id) : M page_id :=
  child_object <- ParentPage_get_child self child_type ;;
  SwitchablePage_switch self (TObject child_object) ;;;
  ret child_object.

(** *** closable.py *)

Definition ClosableEditor_on_close (self : page_id) : M unit :=
  log (EvOnClose self).

Definition ClosableEditor_on_end (self : page_id) : M unit :=
  log (EvOnEnd self).


(** [View.stop]: the view counts as finished from now on. *)
Definition View_stop (self : page_id) : M unit :=
  pg <- get_page self ;;
  set_page self (MkPage (klass pg) (message pg) (embed pg) (children pg) true
                        (parent pg) (_child_instances pg) (ending_task pg)).

Definition ClosableEditor_stop (self : page_id) : M unit :=
  t <- create_task self ;;
  pg <- get_page self ;;
  set_page self (MkPage (klass pg) (message pg) (embed pg) (children pg) (stopped pg)
                        (parent pg) (_child_instances pg) (Some t)) ;;;
  View_stop self.

Definition ClosableEditor_await (pg : Page) : awaitable :=
  match ending_task pg with
  | Some t => task_await t
  | None => _never_generator
  end.

Definition _close_interaction (self : page_id) (i : interaction) : M pyval :=
  log (EvSendModal self) ;;;
  if modal_timed_out i then
    pg <- get_page self ;;
    log (EvFollowup (_close_timeout_message (classes (klass pg)))) ;;;
    ret (PyBool true)
  else
    ClosableEditor_on_close self ;;;
    ClosableEditor_stop self ;;;
    ret PyNone.

(** *** menu.py *)

(** [next(iterator)] *)
Definition py_next {A} (it : list A) : M A :=
  match it with
  | x :: _ => ret x
  | [] => raise StopIteration
  end.

(** A [StopIteration] that reaches the boundary of a coroutine leaves it
    as a [RuntimeError]. *)
Definition async_def {A} (m : M A) : M A :=
  fun w => match m w with
           | (Raised StopIteration, w') => (Raised RuntimeError, w')
           | r => r
           end.

Definition _MenuSelect_callback (editor : page_id) (i : interaction) : M pyval :=
  async_def (
    match values i with
    | [] => raise IndexError
    | v :: _ =>
        match py_int v with
        | None =>
            log (EvLogError "_MenuSelect value could not be interpreted as integer") ;;;
            log (EvSendMessage "Selected Value is not possible...?") ;;;
            ret PyNone
        | Some child_id =>
            pg <- get_page editor ;;
            r <- try_except
                   (child <- py_next (filter (fun c => c = child_id)
                                             (cls_CHILDREN (classes (klass pg)))) ;;
                    ret (Some child))
                   KeyError
                   (log (EvLogError "Could not find child for _MenuSelect value %d") ;;;
                    log (EvSendMessage "Could not interpret selected value...") ;;;
                    ret None) ;;
            match r with
            | None => ret PyNone
            | Some child =>
                log EvDefer ;;;
                ParentPage_switch_to_child editor child ;;;
                ret PyNone
            end
        end
    end).

Definition _back_to_parent (self : page_id) : M pyval :=
  log EvDefer ;;;
  ChildPage_switch_to_parent self ;;;
  ret PyNone.

(** [while isinstance(root, ChildPage): root = root.parent], with the
    number of pages ever created as the bound on the walk: a parent
    exists before its child is constructed, so the chain is shorter. *)
Fixpoint walk_to_root (fuel : nat) (root : page_id) : M page_id :=
  pg <- get_page root ;;
  if issubclass (classes (klass pg)) ChildPage then
    match fuel, parent pg with
    | S fuel', Some p => walk_to_root fuel' p
    | _, _ => raise AttributeError
    end
  else ret root.

Definition _back_to_top (self : page_id) : M pyval :=
  log EvDefer ;;;
  pg <- get_page self ;;
  match parent pg with
  | None => raise AttributeError
  | Some p =>
      root <- (fun w => walk_to_root (next_page w) p w) ;;
      SwitchablePage_switch self (TObject root) ;;;
      ret PyNone
  end.

(** *** base.py: disable_when_processing *)

Definition disable_when_processing_aenter (g : guard_id) : M unit :=
  gs <- get_guard g ;;
  match guard_editor gs with
  | None => raise AttributeError
  | Some editor =>
      pg <- get_page editor ;;
      for_each (children pg) (fun item =>
        it <- get_item item ;;
        (if negb (disabled it) then
           gs' <- get_guard g ;;
           set_guard g (MkGuard (disabled_items gs' ++ [item]) (guard_editor gs'))
         else ret tt) ;;;
        set_disabled item true) ;;;
      EditorPage_update_message editor
  end.

Definition disable_when_processing_aexit (g : guard_id) : M unit :=
  gs <- get_guard g ;;
  for_each (disabled_items gs) (fun item => set_disabled item false) ;;;
  set_guard g (MkGuard [] (guard_editor gs)) ;;;
  match guard_editor gs with
  | None => raise AttributeError
  | Some editor => EditorPage_update_message editor
  end.

(** [disable_when_processing.__call__]; [func] is [self.func]. *)
Definition disable_when_processing_call {A} (g : guard_id)
    (func : page_id → interaction → M A) (editor : page_id) (i : interaction) : M A :=
  gs <- get_guard g ;;
  set_guard g (MkGuard (disabled_items gs) (Some editor)) ;;;
  disable_when_processing_aenter g ;;;
  try_finally (func editor i) (disable_when_processing_aexit g).

(** *** Running callbacks *)

Definition run_code (c : code) (self : page_id) (i : interaction) : M pyval :=
  match c with
  | close_interaction => _close_interaction self i
  | back_to_parent => _back_to_parent self
  | back_to_top => _back_to_top self
  | menu_select_callback => _MenuSelect_callback self i
  | user_code n => user_body n self i
  end.

Fixpoint run_pyfunc (f : pyfunc) (self : page_id) (i : interaction) : M pyval :=
  match f with
  | Func body _ => run_code body self i
  | Guard g func _ => disable_when_processing_call g (run_pyfunc func) self i
  end.

Definition flag (o : option bool) : bool := default false o.

(** [item.callback(interaction)]; the second case is the [wrapper]
    closure inside [_wraps_update]. *)
Fixpoint run_callback (c : callback) (i : interaction) : M pyval :=
  match c with
  | Bound f self => run_pyfunc f self i
  | Wrapper editor func =>
      response <- run_callback func i ;;
      (if negb (flag (editor_disable_update (callback_attrs func)))
       then EditorPage_update editor else ret tt) ;;;
      (if negb (flag (editor_disable_message_update (callback_attrs func)))
       then EditorPage_update_message editor else ret tt) ;;;
      ret response
  end.

(** The host dispatching an interaction to a component. *)
Definition press (item : item_id) (i : interaction) : M pyval :=
  it <- get_item item ;;
  run_callback (item_callback it) i.

(** *** The event loop *)

(** Running a scheduled task to completion. *)
Definition run_task (t : task_id) : M unit :=
  fun w => match tasks w !! t with
           | Some (MkTask p false) =>
               (ClosableEditor_on_end p ;;;
                fun w' => (Ok tt, World (pages w') (items w') (guards w')
                                        (<[t := MkTask p true]> (tasks w'))
                                        (next_page w') (next_item w') (next_task w')
                                        (trace w'))) w
           | _ => (Ok tt, w)
           end.


(** [Future.__await__]: yield to the loop while the task is not done,
    hand out its result ([on_end] returns [None]) once it is. *)
Definition resume (a : awaitable) (w : world) : resumption :=
  match a with
  | _never_generator => Resolved PyNone
  | task_await t =>
      match tasks w !! t with
      | Some (MkTask _ true) => Resolved PyNone
      | _ => Suspended
      end
  end.

(** ** Specification vocabulary *)

(** What one call of [update_message] on [p] appends to the trace. *)
Definition update_message_events (w : world) (p : page_id) : list event :=
  EvUpdateMessage p ::
  match pages w !! p with
  | Some pg =>
      match message pg with
      | None => [EvWarning p]
      | Some m => [EvMessageEdit m p]
      end
  | None => []
  end.

Definition add_trace (l : list event) (w : world) : world :=
  World (pages w) (items w) (guards w) (tasks w)
        (next_page w) (next_item w) (next_task w) (trace w ++ l).



Definition task_finished (t : task_id) (w : world) : bool :=
  match tasks w !! t with
  | Some (MkTask _ true) => true
  | _ => false
  end.


(** The item store after [View.__init__] has made items for [fs],
    starting at identity [n]. *)
Fixpoint alloc_items (self : page_id) (n : item_id) (fs : list pyfunc)
    (m : gmap nat Item) : gmap nat Item :=
  match fs with
  | [] => m
  | f :: fs' => alloc_items self (S n) fs' (<[n := MkItem false (Bound f self)]> m)
  end.

Definition wrap_item (self : page_id) (it : Item) : Item :=
  MkItem (disabled it) (_wraps_update self (item_callback it)).

Definition set_item_disabled (b : bool) (it : Item) : Item :=
  MkItem b (item_callback it).

(** Applying [h] to the items named in [l], one after the other. *)
Definition alter_items (h : Item → Item) (l : list item_id) (m : gmap nat Item) :
    gmap nat Item :=
  foldl (fun m i => alter h i m) m l.






(** The store [construct] leaves behind when the call is well typed. *)
Definition constructed (cls : class_id) (message embed : option nat)
    (parent : option page_id) (w : world) : world :=
  let self := next_page w in
  let fs := class_components (classes cls) in
  let n := next_item w in
  let l := seq n (length fs) in
  let m := alter_items (wrap_item self) l (alloc_items self n fs (items w)) in
  if issubclass (classes cls) MenuPage then
    World (<[self := MkPage cls message embed (l ++ [n + length fs]) false parent ∅ None]>
             (pages w))
          (<[n + length fs := MkItem false (Bound (Func menu_select_callback no_attrs) self)]> m)
          (guards w) (tasks w)
          (S (next_page w)) (S (n + length fs)) (next_task w) (trace w)
  else
    World (<[self := MkPage cls message embed l false parent ∅ None]> (pages w))
          m (guards w) (tasks w)
          (S (next_page w)) (n + length fs) (next_task w) (trace w).

End Editor.

(** ** A concrete program *)

(** A small class table: a root menu (10) with two submenus (20, 30),
    a closable page (40) and a closable menu (50). *)
Definition demo_classes (c : class_id) : class_def :=
  if bool_decide (c = 10%Z) then
    ClassDef [MenuPage] [20%Z; 30%Z] [Func (user_code 0) no_attrs] None
  else if bool_decide (c = 20%Z) then
    ClassDef [SubmenuPage] [] [Guard 0 (Func (user_code 1) no_attrs) no_attrs] None
  else if bool_decide (c = 30%Z) then
    ClassDef [SubmenuPage] [] [Guard 0 (Func (user_code 0) no_attrs) no_attrs] None
  else if bool_decide (c = 40%Z) then
    ClassDef [ClosableEditor] [] [Func (user_code 0) no_attrs] None
  else if bool_decide (c = 50%Z) then
    ClassDef [MenuPage; ClosableEditor] [20%Z] [] (Some "closed")
  else ClassDef [EditorPage] [] [] None.

(** Callback 0 reports and returns; callback 1 reports and fails. *)
Definition demo_body (n : nat) (self : page_id) (i : interaction) : M pyval :=
  match n with
  | 0 => bind (log (EvUser 0)) (fun _ => ret PyNone)
  | _ => bind (log (EvUser n)) (fun _ => raise (UserError n))
  end.

Definition empty_world : world := World ∅ ∅ ∅ ∅ 0 0 0 [].

(** The store after [cls(Some 7, None)], for a class that is no child. *)
Definition world_with (cls : class_id) : world :=
  (construct demo_classes cls (Some 7) None None empty_world).2.

Definition select_of (v : string) : interaction := Interaction [v] false.



(** The closable page class, which no menu declares as a child. *)
Definition closable_class : Z := 40.

(** Page 0 of [world_with 40], a closable page. *)
Definition closable_page : Page :=
  MkPage 40%Z (Some 7) None [0; 1] false None ∅ None.

(** Page 0 of [world_with 10], the root menu. *)
Definition menu_page : Page :=
  MkPage 10%Z (Some 7) None [0; 1] false None ∅ None.


(** * More of the editor: vocabulary *)

(** [str(n)] on a Python integer: decimal digits, a minus sign for
    negatives.  [MenuPage.__init__] builds its option values with it. *)
Definition digit_char (d : Z) : Ascii.ascii :=
  Ascii.ascii_of_nat (48 + Z.to_nat d).

Fixpoint digits_of (fuel : nat) (n : Z) (acc : string) : string :=
  match fuel with
  | 0 => acc
  | S fuel' =>
      let acc' := String (digit_char (n mod 10)) acc in
      if (n <? 10)%Z then acc' else digits_of fuel' (n / 10) acc'
  end.

Definition py_str (z : Z) : string :=
  if (z <? 0)%Z
  then String "-"%char (digits_of (S (Z.to_nat (Z.log2 (- z)))) (- z) "")
  else digits_of (S (Z.to_nat (Z.log2 z))) z "".


Section EditorVocabulary.

Variable classes : class_id → class_def.



End EditorVocabulary.

(** * util/limited_list.py *)

Module LimitedList.

(** The list and its [_size] slot. *)
Record t (A : Type) := Make {
  elements : list A;
  _size : Z;
}.
Arguments Make {A} elements _size.
Arguments elements {A} t.
Arguments _size {A} t.

(** [LimitedList(iterable, size=-1)] *)
Definition default_size : Z := (-1)%Z.

Definition init {A} (iterable : list A) (size : Z) : t A := Make iterable size.

Definition len {A} (self : t A) : Z := Z.of_nat (length (elements self)).

Definition size {A} (self : t A) : Z := _size self.

Definition append {A} (self : t A) (object : A) : outcome unit * t A :=
  if (len self >=? _size self)%Z then (Raised RuntimeError, self)
  else (Ok tt, Make (elements self ++ [object]) (_size self)).

(** [for e in iterable: self.append(e)] *)
Fixpoint extend {A} (self : t A) (iterable : list A) : outcome unit * t A :=
  match iterable with
  | [] => (Ok tt, self)
  | e :: rest =>
      match append self e with
      | (Ok _, self') => extend self' rest
      | (Raised err, self') => (Raised err, self')
      end
  end.

(** [super().extend] is the plain [list.extend]. *)
Definition extend_safely {A} (self : t A) (iterable : list A) : outcome unit * t A :=
  if (len self + Z.of_nat (length iterable) <=? size self)%Z
  then (Raised RuntimeError, self)
  else (Ok tt, Make (elements self ++ iterable) (_size self)).

(** How many more elements fit. *)
Definition room {A} (self : t A) : nat := Z.to_nat (_size self - len self).

End LimitedList.

(** * util/snowflakes.py *)

Module Snowflake.

Record _SnowflakeRaw := Raw {
  timestamp : Z;
  worker_id : Z;
  process_id : Z;
  increment : Z;
}.

(** [a << b] on Python integers: a negative shift count is a
    [ValueError]. *)
Definition py_lshift (a b : Z) : outcome Z :=
  if (b <? 0)%Z then Raised ValueError else Ok (Z.shiftl a b).

(** [timestamp << 22 + worker_id << 17 + process_id << 12 + increment]:
    [+] binds tighter than [<<], and [<<] associates to the left. *)
Definition to_int (self : _SnowflakeRaw) : outcome Z :=
  match py_lshift (timestamp self) (22 + worker_id self) with
  | Raised e => Raised e
  | Ok a =>
      match py_lshift a (17 + process_id self) with
      | Raised e => Raised e
      | Ok b => py_lshift b (12 + increment self)
      end
  end.

Definition from_int (snowflake : Z) : _SnowflakeRaw :=
  Raw (Z.shiftr snowflake 22)
      (Z.shiftr (Z.land snowflake 0x3E0000) 17)
      (Z.shiftr (Z.land snowflake 0x1F000) 12)
      (Z.land snowflake 0xFFF).

Record SnowflakeGenerator := Generator {
  gen_process_id : Z;
  gen_worker_id : Z;
  _increment : Z;
}.

(** [SnowflakeGenerator(process_id)]; [ident] is
    [current_thread().ident]. *)
Definition init (process_id : option Z) (ident : Z) : SnowflakeGenerator :=
  Generator (default 31%Z process_id) (Z.land ident 0x1F) 0.

(** [generate_raw]; [discord_epoch] is the clock reading, in
    milliseconds since [EPOCH_START]. *)
Definition generate_raw (self : SnowflakeGenerator) (discord_epoch : Z) :
    _SnowflakeRaw * SnowflakeGenerator :=
  (Raw discord_epoch (gen_worker_id self) (gen_process_id self) (_increment self),
   Generator (gen_process_id self) (gen_worker_id self)
             (Z.land (_increment self + 1) 0xFFF)).

Definition generate (self : SnowflakeGenerator) (discord_epoch : Z) :
    outcome Z * SnowflakeGenerator :=
  let (raw, self') := generate_raw self discord_epoch in (to_int raw, self').

Definition decompose (snowflake : Z) : _SnowflakeRaw := from_int snowflake.

(** One [generate_raw] per clock reading. *)
Fixpoint generate_raws (self : SnowflakeGenerator) (clock : list Z) :
    list _SnowflakeRaw * SnowflakeGenerator :=
  match clock with
  | [] => ([], self)
  | t :: clock' =>
      let (raw, self') := generate_raw self t in
      let (raws, self'') := generate_raws self' clock' in
      (raw :: raws, self'')
  end.

(** The layout [from_int] reads. *)
Definition pack (r : _SnowflakeRaw) : Z :=
  (timestamp r * 2 ^ 22 + worker_id r * 2 ^ 17 + process_id r * 2 ^ 12 + increment r)%Z.

End Snowflake.

(** * util/singleton.py and the constructor of data/sql/engine.py *)

Module Singleton.

Section WithInit.

Context {Args Obj : Type}.

(** [type.__call__(cls, *args)]: what constructing an instance of
    [cls] from [args] gives. *)
Variable new : Z → Args → outcome Obj.

(** [SingletonMeta.__instance_cache], and the instances by identity. *)
Record state := State {
  instance_cache : gmap Z nat;
  instances : gmap nat Obj;
  next_instance : nat;
}.

(** [SingletonMeta.__call__] *)
Definition call (cls : Z) (args : Args) (st : state) : outcome nat * state :=
  match instance_cache st !! cls with
  | Some o => (Ok o, st)
  | None =>
      match new cls args with
      | Raised e => (Raised e, st)
      | Ok obj =>
          let o := next_instance st in
          (Ok o, State (<[cls := o]> (instance_cache st))
                       (<[o := obj]> (instances st))
                       (S o))
      end
  end.

End WithInit.

Arguments state Obj : clear implicits.

Section WithEngine.

Context {Engine : Type}.

(** [asql.create_async_engine(url, echo=False)]: the engine for a url,
    or the exception the library raises for it. *)
Variable create_async_engine : string → outcome Engine.

(** [AsyncDatabase]: [_engine], the engine [_sessionmaker] is bound to,
    and [_opened]. *)
Record AsyncDatabase := Database {
  _engine : Engine;
  _sessionmaker : Engine;
  _opened : bool;
}.

(** [AsyncDatabase.__init__(url=None)] *)
Definition AsyncDatabase_init (cls : Z) (url : option string) : outcome AsyncDatabase :=
  match url with
  | None => Raised RuntimeError
  | Some u =>
      match create_async_engine u with
      | Raised e => Raised e
      | Ok engine => Ok (Database engine engine true)
      end
  end.

End WithEngine.

Arguments AsyncDatabase Engine : clear implicits.

End Singleton.

(** * data/sql/type_decorators.py *)

Module HugeInt.

Definition process_bind_param (value : option Z) : option string :=
  match value with
  | Some v => Some (py_str v)
  | None => None
  end.

(** [int(value)] raises [ValueError] on a string that is no integer. *)
Definition process_result_value (value : option string) : outcome (option Z) :=
  match value with
  | Some s =>
      match py_int s with
      | Some z => Ok (Some z)
      | None => Raised ValueError
      end
  | None => Ok None
  end.

End HugeInt.

(** * util/coroutine_tools.py *)

Module CoroutineTools.

(** A [deque], left end first. *)
Definition deque_append {A} (queue : list A) (x : A) : list A := queue ++ [x].

(** [queue.pop()] takes from the right end; [IndexError] when empty. *)
Definition deque_pop {A} (queue : list A) : outcome (A * list A) :=
  match rev queue with
  | [] => Raised IndexError
  | x :: r => Ok (x, rev r)
  end.

(** What the generator [_consume_deque(queue)] yields until it returns;
    [None] when the bound on the number of loop rounds is used up. *)
Fixpoint _consume_deque {A} (rounds : nat) (queue : list A) : option (list A) :=
  match rounds with
  | 0 => None
  | S rounds' =>
      match deque_pop queue with
      | Ok (x, queue') => cons x <$> _consume_deque rounds' queue'
      | Raised _ => Some []
      end
  end.

(** [preload(iterable)]: every element is appended to a fresh deque,
    then the deque is consumed. *)
Definition preload {A} (rounds : nat) (iterable : list A) : option (list A) :=
  _consume_deque rounds (foldl deque_append [] iterable).

End CoroutineTools.

(** * util/channel_hierarchy.py *)

Module ChannelHierarchy.

(** The classes the two lookup tables know, and any other class. *)
Inductive channel_type :=
| Guild
| CategoryChannel
| TextChannel
| ForumChannel
| VoiceChannel
| StageChannel
| Thread
| OtherType.        (* any class that is none of the seven nor derived from one *)

Global Instance channel_type_eq_dec : EqDecision channel_type.
Proof. solve_decision. Defined.

(** ** Downwards *)

Inductive sub_attribute :=
| attr_channels     (* "channels" *)
| attr_threads.     (* "threads" *)

(** [_SUBCHANNEL_LUT[type(channel)]]; the outer [None] is the
    [KeyError]. *)
Definition _SUBCHANNEL_LUT (ty : channel_type) : option (option sub_attribute) :=
  match ty with
  | Guild => Some (Some attr_channels)
  | CategoryChannel => Some (Some attr_channels)
  | TextChannel => Some (Some attr_threads)
  | ForumChannel => Some (Some attr_threads)
  | VoiceChannel => Some None
  | StageChannel => Some None
  | Thread => Some None
  | OtherType => None
  end.

(** A channel object seen from above: its class, its id and the lists
    behind the attributes the table names. *)
#[warnings="-register-all"] Inductive channel :=
| Channel (ty : channel_type) (id : Z) (channels threads : list channel).

Definition channel_ty (c : channel) : channel_type :=
  match c with Channel ty _ _ _ => ty end.

Definition channel_id (c : channel) : Z :=
  match c with Channel _ id _ _ => id end.

Definition getattr (c : channel) (a : sub_attribute) : list channel :=
  match c, a with
  | Channel _ _ channels _, attr_channels => channels
  | Channel _ _ _ threads, attr_threads => threads
  end.

Definition get_subchannels (c : channel) : outcome (list channel) :=
  match _SUBCHANNEL_LUT (channel_ty c) with
  | None => Raised TypeError
  | Some None => Ok []
  | Some (Some attribute) => Ok (getattr c attribute)
  end.

(** A generator run to its end: what it yields, and the exception it
    ends with, if any. *)
Definition yields (A : Type) : Type := list A * option exn.

(** [for sub in subs: yield from gen(sub)] *)
Definition yield_from_each {A} (gen : A → yields A) : list A → yields A :=
  fix loop (subs : list A) : yields A :=
    match subs with
    | [] => ([], None)
    | sub :: rest =>
        match gen sub with
        | (ys, Some e) => (ys, Some e)
        | (ys, None) => let (zs, e) := loop rest in (ys ++ zs, e)
        end
    end.

(** [yield x], then the rest. *)
Definition yield_then {A} (x : A) (rest : yields A) : yields A :=
  let (ys, e) := rest in (x :: ys, e).

Fixpoint _get_all_subchannels_depth (c : channel) : yields channel :=
  match c with
  | Channel ty _ channels threads =>
      match _SUBCHANNEL_LUT ty with
      | None => ([], Some TypeError)
      | Some None => ([], None)
      | Some (Some attr_channels) =>
          yield_from_each
            (fun sub => yield_then sub (_get_all_subchannels_depth sub)) channels
      | Some (Some attr_threads) =>
          yield_from_each
            (fun sub => yield_then sub (_get_all_subchannels_depth sub)) threads
      end
  end.

Fixpoint _get_all_subchannels_breadth (c : channel) : yields channel :=
  match c with
  | Channel ty _ channels threads =>
      match _SUBCHANNEL_LUT ty with
      | None => ([], Some TypeError)
      | Some None => ([], None)
      | Some (Some attr_channels) =>
          let (ys, e) := yield_from_each _get_all_subchannels_breadth channels in
          (channels ++ ys, e)
      | Some (Some attr_threads) =>
          let (ys, e) := yield_from_each _get_all_subchannels_breadth threads in
          (threads ++ ys, e)
      end
  end.

Definition get_all_subchannels (c : channel) (breadth_first : bool) : yields channel :=
  if negb breadth_first then _get_all_subchannels_depth c
  else _get_all_subchannels_breadth c.

(** [a == b] on channel objects: the same class and the same id. *)
Definition channel_eqb (a b : channel) : bool :=
  bool_decide (channel_ty a = channel_ty b) && bool_decide (channel_id a = channel_id b).

(** [x in generator]: [True] at the first equal element, the
    generator's exception if it ends with one before that. *)
Definition py_in {A} (eqb : A → A → bool) (x : A) (gen : yields A) : outcome bool :=
  if existsb (eqb x) gen.1 then Ok true
  else match gen.2 with
       | Some e => Raised e
       | None => Ok false
       end.

Definition is_subchannel (c parent : channel) : outcome bool :=
  py_in channel_eqb c (get_all_subchannels parent true).

(** Every object the traversal from [c] reaches has a class the table
    knows. *)
Fixpoint supported (c : channel) : bool :=
  match c with
  | Channel ty _ channels threads =>
      match _SUBCHANNEL_LUT ty with
      | None => false
      | Some None => true
      | Some (Some attr_channels) => forallb supported channels
      | Some (Some attr_threads) => forallb supported threads
      end
  end.

(** ** Upwards *)

Inductive parent_attribute :=
| attr_category     (* "category" *)
| attr_guild        (* "guild" *)
| attr_parent.      (* "parent" *)

Definition _PARENT_LUT (ty : channel_type) : option (option (list parent_attribute)) :=
  match ty with
  | Guild => Some None
  | CategoryChannel => Some (Some [attr_guild])
  | TextChannel => Some (Some [attr_category; attr_guild])
  | ForumChannel => Some (Some [attr_category; attr_guild])
  | VoiceChannel => Some (Some [attr_category; attr_guild])
  | StageChannel => Some (Some [attr_category; attr_guild])
  | Thread => Some (Some [attr_parent])
  | OtherType => None
  end.

(** A channel object seen from below: its class, its id and the objects
    behind [category], [guild] and [parent]. *)
#[warnings="-register-all"] Inductive node :=
| Node (ty : channel_type) (id : Z) (category guild parent : option node).

Definition node_ty (n : node) : channel_type :=
  match n with Node ty _ _ _ _ => ty end.

Definition node_id (n : node) : Z :=
  match n with Node _ id _ _ _ => id end.

Definition getattr_up (n : node) (a : parent_attribute) : option node :=
  match n, a with
  | Node _ _ category _ _, attr_category => category
  | Node _ _ _ guild _, attr_guild => guild
  | Node _ _ _ _ parent, attr_parent => parent
  end.

(** [next(filterfalse(lambda result: result is None, ...))] *)
Fixpoint first_not_none {A} (results : list (option A)) : outcome A :=
  match results with
  | [] => Raised StopIteration
  | Some x :: _ => Ok x
  | None :: rest => first_not_none rest
  end.

Definition get_parent (c : node) : outcome (option node) :=
  match _PARENT_LUT (node_ty c) with
  | None => Raised TypeError
  | Some None => Ok None
  | Some (Some attributes) =>
      match first_not_none (map (getattr_up c) attributes) with
      | Ok p => Ok (Some p)
      | Raised e => Raised e
      end
  end.

Definition node_eqb (a b : node) : bool :=
  bool_decide (node_ty a = node_ty b) && bool_decide (node_id a = node_id b).

(** The number of parent links above a node, plus one. *)
Fixpoint height (n : node) : nat :=
  match n with
  | Node _ _ category guild parent =>
      S (Nat.max (default 0 (height <$> category))
           (Nat.max (default 0 (height <$> guild)) (default 0 (height <$> parent))))
  end.

(** [is_parent], with a bound on the depth of the recursion. *)
Fixpoint is_parent_upto (depth : nat) (parent child : node) : option (outcome bool) :=
  match depth with
  | 0 => None
  | S depth' =>
      match get_parent child with
      | Raised e => Some (Raised e)
      | Ok None => Some (Ok false)
      | Ok (Some actual_parent) =>
          if node_eqb parent actual_parent then Some (Ok true)
          else is_parent_upto depth' parent actual_parent
      end
  end.

(** An exception inside a generator: a [StopIteration] leaves it as a
    [RuntimeError]. *)
Definition in_generator (e : exn) : exn :=
  match e with
  | StopIteration => RuntimeError
  | _ => e
  end.

(** [get_all_parents(channel, include_this=..., include_root=...)], with
    a bound on the depth of the recursion. *)
Fixpoint get_all_parents_upto (depth : nat) (c : node) (include_this include_root : bool) :
    option (yields node) :=
  match depth with
  | 0 => None
  | S depth' =>
      let rest :=
        match get_parent c with
        | Raised e => Some ([], Some (in_generator e))
        | Ok None => Some ([], None)
        | Ok (Some parent) =>
            match get_all_parents_upto depth' parent false include_root with
            | None => None
            | Some (ys, e) =>
                Some (if include_root || negb (bool_decide (node_ty parent = Guild))
                      then (parent :: ys, e) else (ys, e))
            end
        end in
      match rest with
      | None => None
      | Some (ys, e) => Some (if include_this then (c :: ys, e) else (ys, e))
      end
  end.

End ChannelHierarchy.

(** * util/confirmation_view.py *)

Module ConfirmationView.

(** What can end an await on the view, besides a result. *)
Inductive error :=
| TimeoutError
| InvalidStateError.

(** The [asyncio.Future] behind the view. *)
Inductive future :=
| Pending
| Finished (result : bool)
| Failed (e : error).

Record view := View {
  _future : future;
  stop_called : bool;       (* whether the view's [stop()] has been called *)
  deferred : nat;           (* calls of [interaction.response.defer()] *)
}.

(** [ConfirmationView(...)] *)
Definition init : view := View Pending false 0.

(** [Future.set_result] and [Future.set_exception] refuse a future that
    is done. *)
Definition settle (f new : future) : error + future :=
  match f with
  | Pending => inr new
  | _ => inl InvalidStateError
  end.

(** [_confirm] (with [True]) and [_cancel] (with [False]): defer, set
    the result, stop. *)
Definition press (answer : bool) (v : view) : option error * view :=
  let v1 := View (_future v) (stop_called v) (S (deferred v)) in
  match settle (_future v1) (Finished answer) with
  | inl e => (Some e, v1)
  | inr f => (None, View f true (deferred v1))
  end.

Definition _confirm : view → option error * view := press true.
Definition _cancel : view → option error * view := press false.

(** [on_timeout]; the base method does nothing. *)
Definition on_timeout (v : view) : option error * view :=
  match settle (_future v) (Failed TimeoutError) with
  | inl e => (Some e, v)
  | inr f => (None, View f (stop_called v) (deferred v))
  end.

(** What an awaiting caller gets: nothing yet, a result, or an
    exception. *)
Definition await (v : view) : option (error + bool) :=
  match _future v with
  | Pending => None
  | Finished b => Some (inr b)
  | Failed e => Some (inl e)
  end.

Inductive event :=
| Confirm
| Cancel
| Timeout.

Definition step (ev : event) (v : view) : option error * view :=
  match ev with
  | Confirm => _confirm v
  | Cancel => _cancel v
  | Timeout => on_timeout v
  end.

(** The callbacks run one after the other; an exception in one does not
    keep the next from running. *)
Fixpoint run (evs : list event) (v : view) : list (option error) * view :=
  match evs with
  | [] => ([], v)
  | ev :: evs' =>
      let (e, v') := step ev v in
      let (es, v'') := run evs' v' in
      (e :: es, v'')
  end.

Definition answer_of (ev : event) : error + bool :=
  match ev with
  | Confirm => inr true
  | Cancel => inr false
  | Timeout => inl TimeoutError
  end.

End ConfirmationView.

(** * Concrete inputs for the further properties *)





(** A guild with a category that holds a text channel with a thread and
    a voice channel; [guild.channels] lists all three channels. *)
Definition demo_thread : ChannelHierarchy.channel :=
  ChannelHierarchy.Channel ChannelHierarchy.Thread 5 [] [].

Definition demo_text : ChannelHierarchy.channel :=
  ChannelHierarchy.Channel ChannelHierarchy.TextChannel 3 [] [demo_thread].

Definition demo_voice : ChannelHierarchy.channel :=
  ChannelHierarchy.Channel ChannelHierarchy.VoiceChannel 4 [] [].

Definition demo_category : ChannelHierarchy.channel :=
  ChannelHierarchy.Channel ChannelHierarchy.CategoryChannel 2 [demo_text; demo_voice] [].

Definition demo_guild : ChannelHierarchy.channel :=
  ChannelHierarchy.Channel ChannelHierarchy.Guild 1
    [demo_category; demo_text; demo_voice] [].

(** The same thread seen from below. *)
Definition up_guild : ChannelHierarchy.node :=
  ChannelHierarchy.Node ChannelHierarchy.Guild 1 None None None.

Definition up_category : ChannelHierarchy.node :=
  ChannelHierarchy.Node ChannelHierarchy.CategoryChannel 2 None (Some up_guild) None.

Definition up_text : ChannelHierarchy.node :=
  ChannelHierarchy.Node ChannelHierarchy.TextChannel 3
    (Some up_category) (Some up_guild) None.

Definition up_thread : ChannelHierarchy.node :=
  ChannelHierarchy.Node ChannelHierarchy.Thread 5 None (Some up_guild) (Some up_text).

(** An engine is named by its url; the empty url has none. *)
Definition demo_create_engine (url : string) : outcome string :=
  if bool_decide (url = "") then Raised ValueError else Ok url.

(** * Properties *)

Section Facts.

Variable classes : class_id → class_def.
Variable user_body : nat → page_id → interaction → M pyval.

Set Default Proof Using "Type".

(** ** Basic facts *)

(** Running a computation whose pieces are known: unfold the monad and
    use the lookups at hand. *)
Ltac exec :=
  repeat first
    [ progress unfold bind, ret, raise, log, get_page, get_item, set_page,
        set_item, get_guard, set_guard, try_except, try_finally
    | progress simpl
    | match goal with H : ?x = _ |- context [?x] => rewrite H end ].

Lemma bind_ok {A B} (m : M A) (k : A → M B) w a w' :
  m w = (Ok a, w') → bind m k w = k a w'.
Proof. intros H. unfold bind. by rewrite H. Qed.

Lemma bind_raised {A B} (m : M A) (k : A → M B) w e w' :
  m w = (Raised e, w') → bind m k w = (Raised e, w').
Proof. intros H. unfold bind. by rewrite H. Qed.


Lemma add_trace_app l1 l2 w : add_trace l2 (add_trace l1 w) = add_trace (l1 ++ l2) w.
Proof. unfold add_trace; simpl. by rewrite app_assoc. Qed.

Lemma log_add_trace e w : log e w = (Ok tt, add_trace [e] w).
Proof. reflexivity. Qed.

Lemma update_message_ok p pg w :
  pages w !! p = Some pg →
  EditorPage_update_message p w = (Ok tt, add_trace (update_message_events w p) w).
Proof.
  intros Hp. unfold EditorPage_update_message, update_message_events, bind, get_page.
  simpl. rewrite Hp.
  destruct (message pg); unfold log, add_trace; simpl; by rewrite <- app_assoc.
Qed.

(** ** hierarchy.py *)


(** C9: for a type that is not in the [CHILDREN] tuple of the parent's
    class, [get_child] raises [KeyError] and leaves the whole store,
    the child cache included, as it was. *)
Theorem get_child_undeclared self child_type pg w :
  pages w !! self = Some pg →
  child_type ∉ cls_CHILDREN (classes (klass pg)) →
  ParentPage_get_child classes self child_type w = (Raised KeyError, w).
Proof.
  intros Hp Hnot. unfold ParentPage_get_child, bind, get_page.
  rewrite Hp. rewrite bool_decide_eq_false_2 by done. reflexivity.
Qed.

(** ** closable.py *)


Lemma stop_spec self pg w :
  pages w !! self = Some pg →
  ClosableEditor_stop self w =
    (Ok tt,
     World (<[self := MkPage (klass pg) (message pg) (embed pg) (children pg) true
                             (parent pg) (_child_instances pg) (Some (next_task w))]>
              (pages w))
           (items w) (guards w)
           (<[next_task w := MkTask self false]> (tasks w))
           (next_page w) (next_item w) (S (next_task w)) (trace w)).
Proof.
  intros Hp.
  unfold ClosableEditor_stop, View_stop, bind, create_task, get_page, set_page.
  simpl. rewrite Hp. simpl. rewrite lookup_insert_eq. simpl.
  by rewrite insert_insert_eq.
Qed.

Lemma run_task_pending t p w :
  tasks w !! t = Some (MkTask p false) →
  run_task t w =
    (Ok tt,
     World (pages w) (items w) (guards w) (<[t := MkTask p true]> (tasks w))
           (next_page w) (next_item w) (next_task w) (trace w ++ [EvOnEnd p])).
Proof. intros Ht. unfold run_task. by rewrite Ht. Qed.


(** C7: awaiting a closable page.  With no recorded task the caller is
    resumed at once with [None].  After [stop] has recorded the task
    that runs [on_end], the caller is suspended in every store where
    that task has not finished and resumed with [None] where it has;
    it is suspended right after [stop], and resumed once the loop has
    run the task, which is when [on_end] has been entered and left. *)
Theorem await_closable self pg w :
  pages w !! self = Some pg →
  match ending_task pg with
  | None => ∀ w', resume (ClosableEditor_await pg) w' = Resolved PyNone
  | Some t => ∀ w', resume (ClosableEditor_await pg) w' =
                    if task_finished t w' then Resolved PyNone else Suspended
  end ∧
  ∃ w1 pg1 t w2,
    ClosableEditor_stop self w = (Ok tt, w1) ∧
    pages w1 !! self = Some pg1 ∧
    ending_task pg1 = Some t ∧
    tasks w1 !! t = Some (MkTask self false) ∧
    (∀ w', resume (ClosableEditor_await pg1) w' =
           if task_finished t w' then Resolved PyNone else Suspended) ∧
    resume (ClosableEditor_await pg1) w1 = Suspended ∧
    run_task t w1 = (Ok tt, w2) ∧
    trace w2 = trace w1 ++ [EvOnEnd self] ∧
    resume (ClosableEditor_await pg1) w2 = Resolved PyNone.
Proof.
  intros Hp. split.
  - unfold ClosableEditor_await, resume, task_finished.
    destruct (ending_task pg) as [t|]; [|done].
    intros w'. by destruct (tasks w' !! t) as [[? [|]]|].
  - eexists _, _, (next_task w), _.
    split; [by apply stop_spec|].
    split; [simpl; by rewrite lookup_insert_eq|].
    split; [done|].
    split; [simpl; by rewrite lookup_insert_eq|].
    split.
    { intros w'. unfold ClosableEditor_await, resume, task_finished. simpl.
      by destruct (tasks w' !! next_task w) as [[? [|]]|]. }
    split.
    { unfold ClosableEditor_await, resume. simpl. by rewrite lookup_insert_eq. }
    split.
    { apply run_task_pending. simpl. by rewrite lookup_insert_eq. }
    split; [done|].
    unfold ClosableEditor_await, resume. simpl. by rewrite lookup_insert_eq.
Qed.

(** ** Construction *)

Lemma alloc_items_lookup self fs : ∀ n m j,
  alloc_items self n fs m !! j =
    if decide (n ≤ j < n + length fs)
    then (fun f => MkItem false (Bound f self)) <$> fs !! (j - n)
    else m !! j.
Proof.
  induction fs as [|f fs IH]; intros n m j; cbn [alloc_items length].
  - case_decide; [lia|done].
  - rewrite IH. repeat case_decide; try lia.
    + destruct (decide (j = n)) as [->|Hne].
      * lia.
      * replace (j - n) with (S (j - S n)) by lia. done.
    + assert (j = n) as -> by lia.
      rewrite lookup_insert_eq. by replace (n - n) with 0 by lia.
    + rewrite lookup_insert_ne by lia. done.
Qed.

Lemma View_init_children_spec self fs : ∀ w,
  View_init_children self fs w =
    (Ok (seq (next_item w) (length fs)),
     World (pages w) (alloc_items self (next_item w) fs (items w)) (guards w) (tasks w)
           (next_page w) (next_item w + length fs) (next_task w) (trace w)).
Proof.
  induction fs as [|f fs IH]; intros w; simpl.
  - unfold ret. destruct w; simpl. by rewrite Nat.add_0_r.
  - unfold bind, alloc_item. rewrite IH. simpl. unfold ret.
    by replace (S (next_item w + length fs)) with (next_item w + S (length fs)) by lia.
Qed.


(** A loop that replaces each listed item by [h] of it. *)
Lemma for_each_set_item h l : ∀ w,
  (∀ i, i ∈ l → is_Some (items w !! i)) →
  for_each l (fun item => bind (get_item item) (fun it => set_item item (h it))) w =
    (Ok tt,
     World (pages w) (alter_items h l (items w)) (guards w) (tasks w)
           (next_page w) (next_item w) (next_task w) (trace w)).
Proof.
  unfold alter_items.
  induction l as [|i l IH]; intros w Hex; simpl.
  - unfold ret. by destruct w.
  - destruct (Hex i) as [it Hit]; [apply elem_of_cons; by left|].
    erewrite bind_ok; [|unfold bind, get_item; rewrite Hit; reflexivity].
    rewrite IH; simpl.
    + do 3 f_equal. apply map_eq. intros j.
      destruct (decide (j = i)) as [->|Hne].
      * by rewrite lookup_insert_eq, lookup_alter_eq, Hit.
      * by rewrite lookup_insert_ne, lookup_alter_ne by done.
    + intros j Hj. destruct (decide (j = i)) as [->|Hne].
      * rewrite lookup_insert_eq. eauto.
      * rewrite lookup_insert_ne by done. apply Hex, elem_of_cons. by right.
Qed.

Lemma EditorPage_init_spec self pg w :
  pages w !! self = Some pg →
  let fs := class_components (classes (klass pg)) in
  let l := seq (next_item w) (length fs) in
  EditorPage_init classes self w =
    (Ok tt,
     World (<[self := MkPage (klass pg) (message pg) (embed pg) l (stopped pg)
                             (parent pg) (_child_instances pg) (ending_task pg)]> (pages w))
           (alter_items (wrap_item self) l (alloc_items self (next_item w) fs (items w)))
           (guards w) (tasks w)
           (next_page w) (next_item w + length fs) (next_task w) (trace w)).
Proof.
  intros Hp fs l. unfold EditorPage_init.
  erewrite bind_ok; [|unfold get_page; rewrite Hp; reflexivity].
  erewrite bind_ok; [|apply View_init_children_spec].
  erewrite bind_ok; [|reflexivity].
  rewrite (for_each_set_item (wrap_item self)); [reflexivity|].
  intros i Hi. simpl. rewrite alloc_items_lookup.
  apply elem_of_seq in Hi. rewrite decide_True by lia.
  destruct (lookup_lt_is_Some_2 (class_components (classes (klass pg)))
              (i - next_item w)) as [f Hf]; [lia|].
  rewrite Hf. simpl. eauto.
Qed.

Lemma construct_spec cls message embed parent w :
  issubclass (classes cls) ChildPage = bool_decide (is_Some parent) →
  construct classes cls message embed parent w =
    (Ok (next_page w), constructed classes cls message embed parent w).
Proof.
  intros Hty. unfold construct, constructed.
  rewrite bool_decide_eq_true_2 by done.
  erewrite bind_ok; [|reflexivity].
  erewrite bind_ok; [|apply (EditorPage_init_spec _ (MkPage cls message embed [] false parent ∅ None));
                      simpl; apply lookup_insert_eq].
  simpl. destruct (issubclass (classes cls) MenuPage).
  - erewrite bind_ok; [reflexivity|].
    unfold MenuPage_init, alloc_item, add_item. exec.
    rewrite lookup_insert_eq. simpl. by rewrite !insert_insert_eq.
  - erewrite bind_ok; [reflexivity|].
    unfold ret. simpl. by rewrite insert_insert_eq.
Qed.




(** ** The refresh wrapper *)




(** ** disable_when_processing *)


Lemma alter_items_lookup_idem h l :
  (∀ x, h (h x) = h x) →
  ∀ m j, alter_items h l m !! j = if decide (j ∈ l) then h <$> m !! j else m !! j.
Proof.
  intros Hidem. unfold alter_items.
  induction l as [|i l IH]; intros m j; cbn [foldl].
  - case_decide as Hnil; [by apply elem_of_nil in Hnil|done].
  - rewrite IH. destruct (decide (j = i)) as [->|Hne].
    + rewrite (decide_True (P := i ∈ i :: l)) by (apply elem_of_cons; by left).
      rewrite lookup_alter_eq.
      destruct (m !! i) as [x|]; simpl; [|by case_decide].
      rewrite Hidem. by case_decide.
    + rewrite lookup_alter_ne by done.
      destruct (decide (j ∈ l)) as [Hj|Hj].
      * rewrite decide_True; [done|]. apply elem_of_cons. by right.
      * rewrite decide_False; [done|]. intros [?|?]%elem_of_cons; done.
Qed.









(** ** Ending a closable page *)







(** ** The child cache *)

Lemma constructed_keeps_pages cls message embed parent w p :
  p ≠ next_page w →
  pages (constructed classes cls message embed parent w) !! p = pages w !! p.
Proof.
  intros Hne. unfold constructed.
  destruct (issubclass (classes cls) MenuPage); simpl; by rewrite lookup_insert_ne.
Qed.

(** A declared child type that is not in the cache is constructed. *)
Lemma get_child_miss self pg child_type w :
  pages w !! self = Some pg →
  child_type ∈ cls_CHILDREN (classes (klass pg)) →
  _child_instances pg !! child_type = None →
  issubclass (classes child_type) ChildPage = true →
  ParentPage_get_child classes self child_type w =
    (Ok (next_page w),
     constructed classes child_type (message pg) (embed pg) (Some self) w).
Proof.
  intros Hp Hin Hmiss Hchild. unfold ParentPage_get_child.
  erewrite bind_ok by (unfold get_page; rewrite Hp; reflexivity).
  rewrite bool_decide_eq_true_2 by done. simpl.
  unfold try_except. rewrite Hmiss. unfold raise at 1.
  rewrite decide_True by done.
  apply construct_spec. rewrite Hchild. symmetry. apply bool_decide_eq_true_2. eauto.
Qed.

(** The page that asked is left as it was, its cache included, so the
    next call for the same type constructs again. *)
Lemma get_child_twice self pg child_type w :
  pages w !! self = Some pg →
  self ≠ next_page w →
  child_type ∈ cls_CHILDREN (classes (klass pg)) →
  _child_instances pg !! child_type = None →
  issubclass (classes child_type) ChildPage = true →
  ∃ w1 w2,
    ParentPage_get_child classes self child_type w = (Ok (next_page w), w1) ∧
    ParentPage_get_child classes self child_type w1 = (Ok (S (next_page w)), w2) ∧
    pages w1 !! self = Some pg.
Proof.
  intros Hp Hne Hin Hmiss Hchild.
  set (w1 := constructed classes child_type (message pg) (embed pg) (Some self) w).
  assert (pages w1 !! self = Some pg) as Hp1.
  { unfold w1. by rewrite constructed_keeps_pages. }
  assert (next_page w1 = S (next_page w)) as Hnp.
  { unfold w1, constructed. by destruct (issubclass (classes child_type) MenuPage). }
  exists w1, (constructed classes child_type (message pg) (embed pg) (Some self) w1).
  split; [by apply get_child_miss|]. split; [|done].
  rewrite <- Hnp. by apply get_child_miss.
Qed.

(** ** The menu's select component *)

Lemma filter_eq_absent (n : Z) (l : list Z) :
  n ∉ l → filter (fun c => c = n) l = [].
Proof.
  induction l as [|a l IH]; intros Hn; [done|].
  rewrite filter_cons_False.
  - apply IH. intros Hin. apply Hn, elem_of_cons. by right.
  - intros ->. apply Hn, elem_of_cons. by left.
Qed.

(** A value that is no integer is reported to the user. *)
Lemma menu_select_not_integer editor v vs b w :
  py_int v = None →
  _MenuSelect_callback classes editor (Interaction (v :: vs) b) w =
    (Ok PyNone,
     add_trace [EvLogError "_MenuSelect value could not be interpreted as integer";
                EvSendMessage "Selected Value is not possible...?"] w).
Proof.
  intros Hv. unfold _MenuSelect_callback, async_def. simpl. rewrite Hv.
  unfold bind, log, ret, add_trace. simpl. by rewrite <- app_assoc.
Qed.

(** An integer that names no declared child leaves the callback as an
    exception, with nothing sent. *)
Lemma menu_select_unknown_child editor pg v vs b n w :
  pages w !! editor = Some pg →
  py_int v = Some n →
  n ∉ cls_CHILDREN (classes (klass pg)) →
  _MenuSelect_callback classes editor (Interaction (v :: vs) b) w =
    (Raised RuntimeError, w).
Proof.
  intros Hp Hv Hn. unfold _MenuSelect_callback, async_def. cbn [values]. rewrite Hv.
  unfold bind, get_page, try_except. rewrite Hp.
  rewrite filter_eq_absent by done. reflexivity.
Qed.

End Facts.

(** * The properties on the concrete program *)

(** C1: [switch] returns while its target is still active.  On the
    root menu, switching to a child instance, or to a page type, renders
    the target and returns it at once: the target is in the store, it
    has not been stopped, and the trace holds nothing but the two
    rendering calls. *)
Theorem switch_returns_while_target_active :
  (∃ w1 w2,
     ParentPage_get_child demo_classes 0 20%Z (world_with 10%Z) = (Ok 1, w1) ∧
     SwitchablePage_switch demo_classes 0 (TObject 1) w1 = (Ok 1, w2) ∧
     stopped <$> pages w2 !! 1 = Some false ∧
     trace w2 = [EvUpdate 1; EvUpdateMessage 1; EvMessageEdit 7 1]) ∧
  (∃ w2,
     SwitchablePage_switch demo_classes 0 (TType 40%Z) (world_with 10%Z) = (Ok 1, w2) ∧
     stopped <$> pages w2 !! 1 = Some false ∧
     trace w2 = [EvUpdate 1; EvUpdateMessage 1; EvMessageEdit 7 1]).
Proof.
  split.
  - eexists _, _. split; [vm_compute; reflexivity|].
    split; [vm_compute; reflexivity|]. split; vm_compute; reflexivity.
  - eexists. split; [vm_compute; reflexivity|]. split; vm_compute; reflexivity.
Qed.

(** C2: [get_child] does not cache.  Two calls for the declared child
    type 20 on the root menu return two different pages, and the
    parent's cache is empty before, between and after the calls. *)
Theorem get_child_builds_second_instance :
  ∃ w1 w2,
    ParentPage_get_child demo_classes 0 20%Z (world_with 10%Z) = (Ok 1, w1) ∧
    ParentPage_get_child demo_classes 0 20%Z w1 = (Ok 2, w2) ∧
    1 ≠ 2 ∧
    _child_instances <$> pages (world_with 10%Z) !! 0 = Some ∅ ∧
    _child_instances <$> pages w1 !! 0 = Some ∅ ∧
    _child_instances <$> pages w2 !! 0 = Some ∅.
Proof.
  eexists _, _. split; [vm_compute; reflexivity|].
  split; [vm_compute; reflexivity|]. split; [lia|].
  repeat split; vm_compute; reflexivity.
Qed.

(** C5: the select callback on a value that is an integer but names no
    declared child.  The root menu declares the children 20 and 30; on
    the value "300" the press ends with an exception, and the store,
    trace included, is as before: nothing was sent to the user. *)
Theorem menu_select_unknown_child_raises :
  press demo_classes demo_body 1 (select_of "300") (world_with 10%Z) =
    (Raised RuntimeError, world_with 10%Z).
Proof. vm_compute. reflexivity. Qed.


(** ** The general statements at concrete inputs *)

Ltac by_compute := vm_compute; reflexivity.
Ltac by_decide := apply (bool_decide_unpack _); vm_compute; exact I.

Lemma get_child_undeclared_witness :
  pages (world_with 10%Z) !! 0 = Some menu_page ∧
  (closable_class ∉ cls_CHILDREN (demo_classes (klass menu_page))) ∧
  ParentPage_get_child demo_classes 0 closable_class (world_with 10%Z) =
    (Raised KeyError, world_with 10%Z).
Proof.
  assert (pages (world_with 10%Z) !! 0 = Some menu_page) as Hp by by_compute.
  assert (closable_class ∉ cls_CHILDREN (demo_classes (klass menu_page))) as Hn
    by by_decide.
  split; [exact Hp|]. split; [exact Hn|].
  exact (get_child_undeclared demo_classes 0 closable_class menu_page
           (world_with 10%Z) Hp Hn).
Defined.


Lemma await_closable_witness :
  pages (world_with 40%Z) !! 0 = Some closable_page ∧
  (∀ w', resume (ClosableEditor_await closable_page) w' = Resolved PyNone) ∧
  ∃ w1 pg1 t w2,
    ClosableEditor_stop 0 (world_with 40%Z) = (Ok tt, w1) ∧
    pages w1 !! 0 = Some pg1 ∧
    ending_task pg1 = Some t ∧
    tasks w1 !! t = Some (MkTask 0 false) ∧
    (∀ w', resume (ClosableEditor_await pg1) w' =
           if task_finished t w' then Resolved PyNone else Suspended) ∧
    resume (ClosableEditor_await pg1) w1 = Suspended ∧
    run_task t w1 = (Ok tt, w2) ∧
    trace w2 = trace w1 ++ [EvOnEnd 0] ∧
    resume (ClosableEditor_await pg1) w2 = Resolved PyNone.
Proof.
  assert (pages (world_with 40%Z) !! 0 = Some closable_page) as Hp by by_compute.
  split; [exact Hp|].
  exact (await_closable 0 closable_page (world_with 40%Z) Hp).
Defined.





(** * More of the editor *)

(** ** Integers as strings *)

Lemma digit_of_digit_char d :
  (0 ≤ d < 10)%Z → digit_of (digit_char d) = Some d.
Proof.
  intros Hd. unfold digit_of, digit_char.
  rewrite Ascii.nat_ascii_embedding by lia.
  rewrite bool_decide_eq_true_2 by lia.
  f_equal. lia.
Qed.

Lemma digits_value_digits_of fuel : ∀ n acc,
  (0 ≤ n < 2 ^ Z.of_nat fuel)%Z →
  digits_value 0 (digits_of fuel n acc) = digits_value n acc.
Proof.
  induction fuel as [|fuel IH]; intros n acc Hn.
  - simpl in *. by replace n with 0%Z by lia.
  - cbn [digits_of].
    assert (0 ≤ n mod 10 < 10)%Z as Hmod by (apply Z.mod_pos_bound; lia).
    destruct (n <? 10)%Z eqn:Hlt.
    + apply Z.ltb_lt in Hlt. cbn [digits_value].
      rewrite digit_of_digit_char by done.
      rewrite Z.mod_small by lia. f_equal.
    + apply Z.ltb_ge in Hlt.
      rewrite IH.
      * cbn [digits_value]. rewrite digit_of_digit_char by done.
        f_equal. rewrite (Z.div_mod n 10) at 3 by lia. lia.
      * split; [apply Z.div_pos; lia|].
        apply Z.div_lt_upper_bound; [lia|].
        rewrite Nat2Z.inj_succ, Z.pow_succ_r in Hn by lia. lia.
Qed.

Lemma digits_of_head fuel : ∀ n acc,
  (0 ≤ n)%Z →
  ∃ d s, (0 ≤ d < 10)%Z ∧ digits_of (S fuel) n acc = String (digit_char d) s.
Proof.
  induction fuel as [|fuel IH]; intros n acc Hn.
  - exists (n mod 10)%Z. cbn [digits_of].
    assert (0 ≤ n mod 10 < 10)%Z by (apply Z.mod_pos_bound; lia).
    destruct (n <? 10)%Z; eauto.
  - cbn [digits_of]. destruct (n <? 10)%Z.
    + exists (n mod 10)%Z. eexists. split; [apply Z.mod_pos_bound; lia|done].
    + apply (IH (n / 10)%Z). apply Z.div_pos; lia.
Qed.

Lemma py_int_digits d s :
  (0 ≤ d < 10)%Z →
  py_int (String (digit_char d) s) = digits_value 0 (String (digit_char d) s).
Proof.
  intros Hd.
  assert (d = 0 ∨ d = 1 ∨ d = 2 ∨ d = 3 ∨ d = 4 ∨ d = 5 ∨ d = 6 ∨ d = 7 ∨ d = 8 ∨ d = 9)%Z
    as Hcases by lia.
  destruct Hcases as [->|[->|[->|[->|[->|[->|[->|[->|[->| ->]]]]]]]]]; reflexivity.
Qed.

Lemma log2_fuel n : (0 ≤ n)%Z → (0 ≤ n < 2 ^ Z.of_nat (S (Z.to_nat (Z.log2 n))))%Z.
Proof.
  intros Hn. split; [done|].
  rewrite Nat2Z.inj_succ, Z2Nat.id by apply Z.log2_nonneg.
  destruct (decide (n = 0%Z)) as [->|Hne]; [done|].
  apply Z.log2_spec. lia.
Qed.

(** Reading back what [str] wrote gives the integer. *)
Lemma py_int_py_str z : py_int (py_str z) = Some z.
Proof.
  unfold py_str. destruct (z <? 0)%Z eqn:Hz.
  - apply Z.ltb_lt in Hz.
    destruct (digits_of_head (Z.to_nat (Z.log2 (- z))) (- z) "") as (d & s & Hd & Hs);
      [lia|].
    rewrite Hs. cbn [py_int]. rewrite <- Hs.
    rewrite digits_value_digits_of by (apply log2_fuel; lia).
    simpl. f_equal. lia.
  - apply Z.ltb_ge in Hz.
    destruct (digits_of_head (Z.to_nat (Z.log2 z)) z "") as (d & s & Hd & Hs); [lia|].
    rewrite Hs, py_int_digits by done. rewrite <- Hs.
    by rewrite digits_value_digits_of by (apply log2_fuel; lia).
Qed.

Section MoreFacts.

Variable classes : class_id → class_def.
Variable user_body : nat → page_id → interaction → M pyval.

Set Default Proof Using "Type".

(** ** base.py: set_component_state *)

(** X1: [set_component_state(state)] gives every component of the page
    the disabled flag [state] and keeps its callback, leaves every other
    item and every page alone, and calls [update_message] once. *)
Theorem set_component_state_sets_all self state pg w :
  pages w !! self = Some pg →
  (∀ item, item ∈ children pg → is_Some (items w !! item)) →
  ∃ w',
    EditorPage_set_component_state self state w = (Ok tt, w') ∧
    (∀ item, item ∈ children pg →
       ∃ it, items w !! item = Some it ∧
             items w' !! item = Some (MkItem state (item_callback it))) ∧
    (∀ item, item ∉ children pg → items w' !! item = items w !! item) ∧
    pages w' = pages w ∧
    trace w' = trace w ++ update_message_events w self.
Proof.
  intros Hp Hex. unfold EditorPage_set_component_state.
  erewrite bind_ok by (unfold get_page; rewrite Hp; reflexivity).
  erewrite bind_ok by (by apply (for_each_set_item (set_item_disabled state))).
  erewrite (update_message_ok _ pg) by done.
  eexists. split; [reflexivity|]. simpl. split.
  - intros item Hin. destruct (Hex item Hin) as [it Hit]. exists it.
    split; [done|]. rewrite alter_items_lookup_idem by done.
    rewrite decide_True by done. by rewrite Hit.
  - split; [|done]. intros item Hin.
    rewrite alter_items_lookup_idem by done. by rewrite decide_False.
Qed.

(** ** hierarchy.py *)

Lemma constructed_page_fields cls msg emb par w :
  ∃ pg, pages (constructed classes cls msg emb par w) !! next_page w = Some pg ∧
    klass pg = cls ∧ message pg = msg ∧ embed pg = emb ∧ parent pg = par ∧
    stopped pg = false ∧ _child_instances pg = ∅ ∧ ending_task pg = None.
Proof.
  unfold constructed. destruct (issubclass (classes cls) MenuPage); simpl;
    (eexists; split; [apply lookup_insert_eq|done]).
Qed.





(** X4: [switch] to a page type.  A subclass of [ChildPage] cannot be
    built from the two positional arguments [switch] passes, so the call
    raises [TypeError] and leaves the store alone; any other type is
    instantiated with the caller's message and embed and rendered
    once. *)
Theorem switch_to_type self pg cls w :
  pages w !! self = Some pg →
  SwitchablePage_switch classes self (TType cls) w =
    if issubclass (classes cls) ChildPage then (Raised TypeError, w)
    else
      (Ok (next_page w),
       add_trace
         [EvUpdate (next_page w); EvUpdateMessage (next_page w);
          match message pg with
          | Some m => EvMessageEdit m (next_page w)
          | None => EvWarning (next_page w)
          end]
         (constructed classes cls (message pg) (embed pg) None w)).
Proof.
  intros Hp. unfold SwitchablePage_switch.
  destruct (issubclass (classes cls) ChildPage) eqn:Hchild.
  - erewrite bind_raised; [done|].
    erewrite bind_ok by (unfold get_page; rewrite Hp; reflexivity).
    unfold construct. rewrite Hchild. by rewrite bool_decide_eq_false_2.
  - erewrite bind_ok.
    2:{ erewrite bind_ok by (unfold get_page; rewrite Hp; reflexivity).
        apply construct_spec. rewrite Hchild. symmetry. apply bool_decide_eq_false_2.
        by intros [? ?]. }
    destruct (constructed_page_fields cls (message pg) (embed pg) None w)
      as (new & Hc & _ & Hm & _).
    unfold EditorPage_update. erewrite bind_ok by apply log_add_trace.
    erewrite bind_ok.
    2:{ apply (update_message_ok _ new). exact Hc. }
    unfold ret, update_message_events. simpl. rewrite Hc, Hm.
    rewrite add_trace_app. by destruct (message pg).
Qed.

(** ** closable.py: the confirmed close *)


(** ** menu.py: choosing an option the menu offered *)



(** ** menu.py: back to top *)





End MoreFacts.

(** * util/limited_list.py *)

(** [extend] in closed form. *)
Lemma extend_run {A} (iterable : list A) : ∀ self,
  LimitedList.extend self iterable =
    (if bool_decide (length iterable ≤ LimitedList.room self)
     then Ok tt else Raised RuntimeError,
     LimitedList.Make
       (LimitedList.elements self ++ take (LimitedList.room self) iterable)
       (LimitedList._size self)).
Proof.
  induction iterable as [|e rest IH]; intros [l n].
  - cbn [LimitedList.extend length]. rewrite bool_decide_eq_true_2 by lia.
    by rewrite take_nil, app_nil_r.
  - cbn [LimitedList.extend]. unfold LimitedList.append, LimitedList.room, LimitedList.len.
    cbn [LimitedList.elements LimitedList._size].
    destruct (Z.of_nat (length l) >=? n)%Z eqn:Hfull.
    + apply Z.geb_le in Hfull.
      replace (Z.to_nat (n - Z.of_nat (length l))) with 0 by lia.
      rewrite bool_decide_eq_false_2 by (cbn [length]; lia).
      by rewrite take_0, app_nil_r.
    + rewrite Z.geb_leb in Hfull. apply Z.leb_gt in Hfull.
      rewrite IH. unfold LimitedList.room, LimitedList.len.
      cbn [LimitedList.elements LimitedList._size].
      rewrite length_app. cbn [length].
      replace (Z.to_nat (n - Z.of_nat (length l)))
        with (S (Z.to_nat (n - Z.of_nat (length l + 1)))) by lia.
      rewrite firstn_cons, <- app_assoc. cbn [app]. f_equal.
      erewrite bool_decide_ext; [reflexivity|]. lia.
Qed.

(** X9: [extend] appends the elements one by one until the list is
    full: afterwards the list holds its old elements followed by as many
    of the new ones as there was room for, and the call raises
    [RuntimeError] exactly when not all of them fitted, with the ones
    before the overflow kept. *)
Theorem extend_fills_up_to_size {A} (iterable : list A) : ∀ self,
  LimitedList.extend self iterable =
    (if bool_decide (length iterable ≤ LimitedList.room self)
     then Ok tt else Raised RuntimeError,
     LimitedList.Make
       (LimitedList.elements self ++ take (LimitedList.room self) iterable)
       (LimitedList._size self)).
Proof. exact (extend_run iterable). Qed.

(** X10: a list within its bound stays within it under [append] and
    [extend], whether they return or raise. *)
Theorem limited_list_keeps_bound {A} (self : LimitedList.t A) x iterable :
  (LimitedList.len self ≤ LimitedList.size self)%Z →
  (LimitedList.len (LimitedList.append self x).2 ≤ LimitedList.size self)%Z ∧
  (LimitedList.len (LimitedList.extend self iterable).2 ≤ LimitedList.size self)%Z ∧
  LimitedList.size (LimitedList.append self x).2 = LimitedList.size self ∧
  LimitedList.size (LimitedList.extend self iterable).2 = LimitedList.size self.
Proof.
  intros Hb. destruct self as [l n].
  unfold LimitedList.len, LimitedList.size in *. simpl in *. split.
  - unfold LimitedList.append, LimitedList.len. simpl.
    destruct (Z.of_nat (length l) >=? n)%Z eqn:Hfull; simpl; [done|].
    rewrite Z.geb_leb in Hfull. apply Z.leb_gt in Hfull.
    rewrite length_app. simpl. lia.
  - split.
    + rewrite extend_run. simpl.
      rewrite length_app, length_take. unfold LimitedList.room, LimitedList.len. simpl. lia.
    + split.
      * unfold LimitedList.append. by destruct (_ >=? _)%Z.
      * by rewrite extend_run.
Qed.

(** X11: a list built without a [size] argument has the bound -1, so
    [append] raises [RuntimeError] on it whatever it holds, and [extend]
    raises on the first element. *)
Theorem default_limited_list_is_full {A} (l : list A) x rest :
  LimitedList.append (LimitedList.init l LimitedList.default_size) x =
    (Raised RuntimeError, LimitedList.init l LimitedList.default_size) ∧
  LimitedList.extend (LimitedList.init l LimitedList.default_size) (x :: rest) =
    (Raised RuntimeError, LimitedList.init l LimitedList.default_size).
Proof.
  assert (LimitedList.append (LimitedList.init l LimitedList.default_size) x =
            (Raised RuntimeError, LimitedList.init l LimitedList.default_size)) as Happ.
  { unfold LimitedList.append, LimitedList.init, LimitedList.default_size, LimitedList.len.
    simpl. destruct (Z.of_nat (length l) >=? -1)%Z eqn:H; [done|].
    rewrite Z.geb_leb in H. apply Z.leb_gt in H. lia. }
  split; [exact Happ|]. cbn [LimitedList.extend]. by rewrite Happ.
Qed.

(** X12: [extend_safely] as written: it raises [RuntimeError], changing
    nothing, exactly when the extended list would still be within
    [size]; otherwise it extends by the whole iterable, and the list is
    then longer than [size]. *)
Theorem extend_safely_outcomes {A} (self : LimitedList.t A) iterable :
  match LimitedList.extend_safely self iterable with
  | (Raised e, self') =>
      e = RuntimeError ∧ self' = self ∧
      (LimitedList.len self + Z.of_nat (length iterable) ≤ LimitedList.size self)%Z
  | (Ok _, self') =>
      LimitedList.elements self' = LimitedList.elements self ++ iterable ∧
      LimitedList.size self' = LimitedList.size self ∧
      (LimitedList.size self' < LimitedList.len self')%Z
  end.
Proof.
  unfold LimitedList.extend_safely.
  destruct (_ <=? _)%Z eqn:H.
  - apply Z.leb_le in H. done.
  - apply Z.leb_gt in H. simpl. split; [done|]. split; [done|].
    unfold LimitedList.len, LimitedList.size in *. simpl. rewrite length_app. lia.
Qed.

(** * util/snowflakes.py *)

Lemma land_mask_shiftr (s : Z) :
  Z.land s 0xFFF = (s mod 2 ^ 12)%Z ∧
  Z.shiftr (Z.land s 0x1F000) 12 = ((s / 2 ^ 12) mod 2 ^ 5)%Z ∧
  Z.shiftr (Z.land s 0x3E0000) 17 = ((s / 2 ^ 17) mod 2 ^ 5)%Z ∧
  Z.shiftr s 22 = (s / 2 ^ 22)%Z.
Proof.
  split; [|split; [|split]].
  - change 0xFFF%Z with (Z.ones 12). by rewrite Z.land_ones.
  - rewrite Z.shiftr_land. change (Z.shiftr 0x1F000 12) with (Z.ones 5).
    rewrite Z.land_ones by done. by rewrite Z.shiftr_div_pow2.
  - rewrite Z.shiftr_land. change (Z.shiftr 0x3E0000 17) with (Z.ones 5).
    rewrite Z.land_ones by done. by rewrite Z.shiftr_div_pow2.
  - by rewrite Z.shiftr_div_pow2.
Qed.

(** [from_int] after [pack]. *)
Lemma from_int_pack ts w p i :
  (0 ≤ w < 32)%Z → (0 ≤ p < 32)%Z → (0 ≤ i < 4096)%Z →
  Snowflake.from_int (Snowflake.pack (Snowflake.Raw ts w p i)) = Snowflake.Raw ts w p i.
Proof.
  intros Hw Hp Hi. unfold Snowflake.from_int, Snowflake.pack. simpl.
  destruct (land_mask_shiftr (ts * 2 ^ 22 + w * 2 ^ 17 + p * 2 ^ 12 + i))
    as (-> & -> & -> & ->).
  f_equal.
  - symmetry. apply (Z.div_unique _ _ _ (w * 2 ^ 17 + p * 2 ^ 12 + i)); lia.
  - replace ((ts * 2 ^ 22 + w * 2 ^ 17 + p * 2 ^ 12 + i) / 2 ^ 17)%Z
      with (ts * 32 + w)%Z.
    + symmetry. apply (Z.mod_unique _ _ ts); lia.
    + apply (Z.div_unique _ _ _ (p * 2 ^ 12 + i)); lia.
  - replace ((ts * 2 ^ 22 + w * 2 ^ 17 + p * 2 ^ 12 + i) / 2 ^ 12)%Z
      with ((ts * 32 + w) * 32 + p)%Z.
    + symmetry. apply (Z.mod_unique _ _ (ts * 32 + w)); lia.
    + apply (Z.div_unique _ _ _ i); lia.
  - symmetry. apply (Z.mod_unique _ _ ((ts * 32 + w) * 32 + p)); lia.
Qed.

(** X13: [from_int] reads the layout timestamp * 2^22 + worker * 2^17 +
    process * 2^12 + increment back into its four fields, for every
    timestamp and every worker and process below 32 and increment below
    4096. *)
Theorem from_int_reads_layout ts w p i :
  (0 ≤ w < 32)%Z → (0 ≤ p < 32)%Z → (0 ≤ i < 4096)%Z →
  Snowflake.from_int (Snowflake.pack (Snowflake.Raw ts w p i)) = Snowflake.Raw ts w p i.
Proof. exact (from_int_pack ts w p i). Qed.

(** X14: for every integer, the worker and process fields [from_int]
    gives are in 0..31 and the increment in 0..4095, and the four fields
    determine the integer: packing them gives it back. *)
Theorem from_int_is_lossless (s : Z) :
  let r := Snowflake.from_int s in
  (0 ≤ Snowflake.worker_id r < 32)%Z ∧
  (0 ≤ Snowflake.process_id r < 32)%Z ∧
  (0 ≤ Snowflake.increment r < 4096)%Z ∧
  Snowflake.pack r = s.
Proof.
  unfold Snowflake.from_int, Snowflake.pack. simpl.
  destruct (land_mask_shiftr s) as (-> & -> & -> & ->).
  change (2 ^ 5)%Z with 32%Z. change (2 ^ 12)%Z with 4096%Z.
  change (2 ^ 17)%Z with 131072%Z. change (2 ^ 22)%Z with 4194304%Z.
  Z.to_euclidean_division_equations. lia.
Qed.

(** X15: [to_int] as written.  Since [+] binds tighter than [<<], the
    timestamp is shifted by the sum of all the shift counts and fields:
    for fields that are not negative the result is
    timestamp * 2^(51 + worker + process + increment), and [from_int]
    reads it back with worker, process and increment all zero. *)
Theorem to_int_shifts_by_the_sum ts w p i :
  (0 ≤ w)%Z → (0 ≤ p)%Z → (0 ≤ i)%Z →
  Snowflake.to_int (Snowflake.Raw ts w p i) = Ok (ts * 2 ^ (51 + w + p + i))%Z ∧
  Snowflake.from_int (ts * 2 ^ (51 + w + p + i)) =
    Snowflake.Raw (ts * 2 ^ (29 + w + p + i)) 0 0 0.
Proof.
  intros Hw Hp Hi. split.
  - unfold Snowflake.to_int, Snowflake.py_lshift. simpl.
    rewrite !(proj2 (Z.ltb_ge _ _)) by lia.
    rewrite !Z.shiftl_mul_pow2 by lia. f_equal.
    rewrite <- !Z.mul_assoc, <- !Z.pow_add_r by lia. do 2 f_equal. lia.
  - replace (ts * 2 ^ (51 + w + p + i))%Z
      with (Snowflake.pack (Snowflake.Raw (ts * 2 ^ (29 + w + p + i)) 0 0 0)).
    + apply from_int_pack; lia.
    + unfold Snowflake.pack.
      cbn [Snowflake.timestamp Snowflake.worker_id Snowflake.process_id
           Snowflake.increment].
      replace (51 + w + p + i)%Z with ((29 + w + p + i) + 22)%Z by lia.
      rewrite (Z.pow_add_r 2 (29 + w + p + i) 22) by lia. ring.
Qed.

Lemma generate_raws_nth clock : ∀ g k raw,
  (Snowflake.generate_raws g clock).1 !! k = Some raw →
  Snowflake.increment raw =
    (if decide (k = 0) then Snowflake._increment g
     else ((Snowflake._increment g + Z.of_nat k) mod 4096)%Z) ∧
  Snowflake.worker_id raw = Snowflake.gen_worker_id g ∧
  Snowflake.process_id raw = Snowflake.gen_process_id g ∧
  clock !! k = Some (Snowflake.timestamp raw).
Proof.
  induction clock as [|t clock IH]; intros g k raw Hk; [done|].
  cbn [Snowflake.generate_raws] in Hk.
  destruct (Snowflake.generate_raw g t) as [r g'] eqn:Hgen.
  destruct (Snowflake.generate_raws g' clock) as [raws g''] eqn:Hrest.
  unfold Snowflake.generate_raw in Hgen. injection Hgen as <- <-.
  destruct k as [|k]; simpl in Hk.
  - injection Hk as <-. done.
  - pose proof (IH (Snowflake.Generator (Snowflake.gen_process_id g)
                      (Snowflake.gen_worker_id g)
                      (Z.land (Snowflake._increment g + 1) 0xFFF)) k raw) as IH'.
    rewrite Hrest in IH'. destruct (IH' Hk) as (Hi & Hw & Hp & Ht).
    cbn [Snowflake.gen_worker_id Snowflake.gen_process_id] in Hw, Hp.
    split; [|split; [exact Hw|split; [exact Hp|exact Ht]]]. rewrite Hi.
    cbn [Snowflake._increment].
    change 0xFFF%Z with (Z.ones 12). rewrite Z.land_ones by done.
    change (2 ^ 12)%Z with 4096%Z.
    rewrite (decide_False (P := S k = 0)) by done.
    destruct (decide (k = 0)) as [->|Hne].
    + f_equal.
    + rewrite Zplus_mod_idemp_l. f_equal. lia.
Qed.

(** X16: a generator numbers what it generates: the raw snowflakes of
    a fresh generator carry the increments 0, 1, 2, ... modulo 4096, so
    the increment is back at the same value after 4096 calls; each
    carries the clock reading of its call, the worker id, which is the
    thread identifier modulo 32, and the process id, 31 unless one was
    given. *)
Theorem generator_counts_mod_4096 process_id ident clock k raw :
  (Snowflake.generate_raws (Snowflake.init process_id ident) clock).1 !! k = Some raw →
  Snowflake.increment raw = (Z.of_nat k mod 4096)%Z ∧
  Snowflake.worker_id raw = (ident mod 32)%Z ∧
  Snowflake.process_id raw = default 31%Z process_id ∧
  clock !! k = Some (Snowflake.timestamp raw).
Proof.
  intros Hk. destruct (generate_raws_nth _ _ _ _ Hk) as (Hi & Hw & Hp & Ht).
  simpl in *. split.
  - rewrite Hi. destruct (decide (k = 0)) as [->|]; done.
  - split; [|done]. rewrite Hw.
    change 0x1F%Z with (Z.ones 5). by rewrite Z.land_ones.
Qed.

(** * util/singleton.py *)

(** X17: once a call of a singleton class has returned an instance,
    every later call for that class returns the same instance, whatever
    arguments it is given, without constructing anything and without
    changing the cache. *)
Theorem singleton_returns_first_instance {Args Obj} (new : Z → Args → outcome Obj)
    cls args st o st' :
  Singleton.call new cls args st = (Ok o, st') →
  ∀ args', Singleton.call new cls args' st' = (Ok o, st').
Proof.
  unfold Singleton.call. intros H args'.
  destruct (Singleton.instance_cache st !! cls) as [o0|] eqn:Hc.
  - injection H as <- <-. by rewrite Hc.
  - destruct (new cls args) as [obj|e]; [|done].
    injection H as <- <-. simpl. by rewrite lookup_insert_eq.
Qed.

(** X18: [AsyncDatabase] as a singleton.  While no instance is cached,
    a call without a url raises [RuntimeError], and a call whose engine
    cannot be created raises the library's exception; neither caches
    anything, so a later call can still construct.  A call whose engine
    is created constructs an opened database on that engine; after it,
    calls without a url and calls with any other url return that first
    database and create no engine. *)
Theorem database_is_constructed_once {Engine} (create : string → outcome Engine)
    cls st url :
  Singleton.instance_cache st !! cls = None →
  Singleton.call (Singleton.AsyncDatabase_init create) cls None st =
    (Raised RuntimeError, st) ∧
  match create url with
  | Raised e =>
      Singleton.call (Singleton.AsyncDatabase_init create) cls (Some url) st =
        (Raised e, st)
  | Ok engine =>
      ∃ o st',
        Singleton.call (Singleton.AsyncDatabase_init create) cls (Some url) st =
          (Ok o, st') ∧
        Singleton.instances st' !! o = Some (Singleton.Database engine engine true) ∧
        ∀ (create' : string → outcome Engine) url',
          Singleton.call (Singleton.AsyncDatabase_init create') cls url' st' = (Ok o, st')
  end.
Proof.
  intros Hc. unfold Singleton.call. rewrite Hc. simpl. split; [done|].
  destruct (create url) as [engine|e]; [|done].
  eexists _, _. split; [done|]. simpl. split; [apply lookup_insert_eq|].
  intros create' url'. by rewrite lookup_insert_eq.
Qed.

(** * data/sql/type_decorators.py *)

(** X19: what [process_bind_param] hands to the database,
    [process_result_value] reads back unchanged: [None] stays [None],
    and an integer of any size and sign survives the trip through its
    string. *)
Theorem huge_int_round_trip (value : option Z) :
  HugeInt.process_result_value (HugeInt.process_bind_param value) = Ok value.
Proof.
  destruct value as [v|]; [|done]. simpl. by rewrite py_int_py_str.
Qed.

(** * util/coroutine_tools.py *)

Lemma consume_deque_reverses {A} (queue : list A) : ∀ rounds,
  length queue < rounds →
  CoroutineTools._consume_deque rounds queue = Some (rev queue).
Proof.
  induction queue as [|x queue IH] using rev_ind; intros rounds Hlen.
  - destruct rounds as [|rounds]; [simpl in Hlen; lia|done].
  - destruct rounds as [|rounds]; [lia|].
    cbn [CoroutineTools._consume_deque]. unfold CoroutineTools.deque_pop.
    rewrite rev_unit, rev_involutive.
    rewrite length_app in Hlen. simpl in Hlen.
    rewrite IH by lia. done.
Qed.

(** X20: [preload] hands the elements out in reverse: they are appended
    on the right of the deque and popped from the right again, so the
    element read last is yielded first, and the generator returns after
    the first one read. *)
Theorem preload_reverses {A} (iterable : list A) rounds :
  length iterable < rounds →
  CoroutineTools.preload rounds iterable = Some (rev iterable).
Proof.
  intros Hlen. unfold CoroutineTools.preload.
  assert (∀ q, foldl CoroutineTools.deque_append q iterable = q ++ iterable) as Hq.
  { induction iterable as [|x l IH]; intros q; simpl; [by rewrite app_nil_r|].
    rewrite IH by (simpl in Hlen; lia). unfold CoroutineTools.deque_append.
    by rewrite <- app_assoc. }
  rewrite Hq. simpl. by apply consume_deque_reverses.
Qed.

(** * util/channel_hierarchy.py *)

Section ChannelHierarchyFacts.

Import ChannelHierarchy.

Lemma channel_nested_ind (P : channel → Prop) :
  (∀ ty id channels threads,
     Forall P channels → Forall P threads → P (Channel ty id channels threads)) →
  ∀ c, P c.
Proof.
  intros H. fix IH 1. intros [ty id channels threads]. apply H.
  - induction channels as [|c l IHl]; constructor; [apply IH|exact IHl].
  - induction threads as [|c l IHl]; constructor; [apply IH|exact IHl].
Qed.

Lemma yield_from_each_cons {A} (gen : A → yields A) x l :
  yield_from_each gen (x :: l) =
    match gen x with
    | (ys, Some e) => (ys, Some e)
    | (ys, None) => let (zs, e) := yield_from_each gen l in (ys ++ zs, e)
    end.
Proof. reflexivity. Qed.

Lemma yield_from_each_ok {A} (gen : A → yields A) (l : list A) :
  Forall (fun x => (gen x).2 = None) l →
  yield_from_each gen l = (concat (map (fun x => (gen x).1) l), None).
Proof.
  induction 1 as [|x l Hx Hl IH]; [done|].
  rewrite yield_from_each_cons, IH. cbn [map concat].
  destruct (gen x) as [ys e]. simpl in Hx. by subst e.
Qed.

Lemma preorder_levelorder (f g : channel → list channel) (l : list channel) :
  Forall (fun x => f x ≡ₚ g x) l →
  concat (map (fun x => x :: f x) l) ≡ₚ l ++ concat (map g l).
Proof.
  induction 1 as [|x l Hx Hl IH]; [done|].
  cbn [map concat app]. constructor.
  rewrite IH, Hx.
  rewrite !(assoc_L (++)). f_equiv. apply Permutation_app_comm.
Qed.

Lemma existsb_Permutation {A} (f : A → bool) (l1 l2 : list A) :
  l1 ≡ₚ l2 → existsb f l1 = existsb f l2.
Proof.
  induction 1 as [|x l l' _ IH|x y l|l l' l'' _ IH1 _ IH2]; simpl.
  - done.
  - by rewrite IH.
  - by destruct (f x), (f y).
  - congruence.
Qed.

(** X21: below a channel whose subtree holds only classes the table
    knows, both traversals run to their end without an exception and
    yield the same channels the same number of times, in different
    orders; so [is_subchannel], which searches breadth-first, answers as
    a depth-first search would. *)
Theorem traversals_yield_the_same c :
  supported c = true →
  ∃ ys zs,
    get_all_subchannels c false = (ys, None) ∧
    get_all_subchannels c true = (zs, None) ∧
    ys ≡ₚ zs ∧
    ∀ x, is_subchannel x c = Ok (existsb (channel_eqb x) ys).
Proof.
  intros Hs.
  assert (∃ ys zs, _get_all_subchannels_depth c = (ys, None) ∧
                   _get_all_subchannels_breadth c = (zs, None) ∧ ys ≡ₚ zs)
    as (ys & zs & Hd & Hb & Hp).
  { revert Hs. induction c as [ty id channels threads IHc IHt] using channel_nested_ind.
    intros Hs.
    assert (∀ l, Forall (fun c => supported c = true →
                   ∃ ys zs, _get_all_subchannels_depth c = (ys, None) ∧
                            _get_all_subchannels_breadth c = (zs, None) ∧ ys ≡ₚ zs) l →
                 forallb supported l = true →
                 ∃ ys zs,
                   yield_from_each
                     (fun sub => yield_then sub (_get_all_subchannels_depth sub)) l =
                     (ys, None) ∧
                   yield_from_each _get_all_subchannels_breadth l = (zs, None) ∧
                   ys ≡ₚ l ++ zs) as Hlist.
    { intros l IH Hl.
      assert (Forall (fun x => ∃ ys zs, _get_all_subchannels_depth x = (ys, None) ∧
                 _get_all_subchannels_breadth x = (zs, None) ∧ ys ≡ₚ zs) l) as Hall.
      { apply Forall_forall. intros x Hx. rewrite Forall_forall in IH.
        apply (IH x Hx). apply (proj1 (forallb_forall _ _) Hl).
        by apply list_elem_of_In. }
      eexists _, _. split.
      - apply yield_from_each_ok. eapply Forall_impl; [exact Hall|].
        intros x (ys & zs & Hd & _). simpl. by rewrite Hd.
      - split.
        + apply yield_from_each_ok. eapply Forall_impl; [exact Hall|].
          intros x (ys & zs & _ & Hb & _). by rewrite Hb.
        + erewrite (map_ext _ (fun x => x :: (_get_all_subchannels_depth x).1)).
          2:{ intros x. by destruct (_get_all_subchannels_depth x). }
          apply (preorder_levelorder (fun x => (_get_all_subchannels_depth x).1)).
          eapply Forall_impl; [exact Hall|].
          intros x (ys & zs & Hd & Hb & Hp). by rewrite Hd, Hb. }
    cbn [supported] in Hs. cbn [_get_all_subchannels_depth _get_all_subchannels_breadth].
    destruct (_SUBCHANNEL_LUT ty) as [[[|]|]|]; [| |by eexists _, _|done].
    - destruct (Hlist channels IHc Hs) as (ys & zs & -> & -> & Hp). eauto.
    - destruct (Hlist threads IHt Hs) as (ys & zs & -> & -> & Hp). eauto. }
  exists ys, zs. unfold get_all_subchannels. simpl.
  split; [done|]. split; [done|]. split; [done|].
  intros x. unfold is_subchannel, py_in, get_all_subchannels. simpl. rewrite Hb. simpl.
  rewrite (existsb_Permutation _ ys zs Hp). by destruct (existsb _ zs).
Qed.

(** ** Upwards *)

Lemma get_parent_height c p :
  get_parent c = Ok (Some p) → height p < height c.
Proof.
  destruct c as [ty id cat gu par]. unfold get_parent. simpl.
  intros H.
  assert (∀ names q, first_not_none
                       (map (getattr_up (Node ty id cat gu par)) names) = Ok q →
                     height q < height (Node ty id cat gu par)) as Hfirst.
  { induction names as [|a names IH]; intros q Hq; [done|].
    simpl in Hq. destruct a; simpl in Hq.
    - destruct cat as [x|]; [injection Hq as ->; simpl; lia|by apply IH].
    - destruct gu as [x|]; [injection Hq as ->; simpl; lia|by apply IH].
    - destruct par as [x|]; [injection Hq as ->; simpl; lia|by apply IH]. }
  destruct (_PARENT_LUT ty) as [[names|]|]; [|done|done].
  destruct (first_not_none _) as [q|e] eqn:Hq; [|done].
  injection H as <-. by apply (Hfirst names).
Qed.

(** X22: with the recursion bound at least the height of the channel,
    [get_all_parents] and [is_parent] both finish.  If the generator ends
    without an exception, the last channel it yields is a guild (or the
    channel itself is one and nothing is yielded), and [is_parent]
    answers whether its first argument equals one of the yielded
    channels. *)
Theorem parents_end_at_guild depth : ∀ c p,
  height c ≤ depth →
  ∃ ys e r,
    get_all_parents_upto depth c false true = Some (ys, e) ∧
    is_parent_upto depth p c = Some r ∧
    (existsb (node_eqb p) ys = true → r = Ok true) ∧
    (e = None →
       r = Ok (existsb (node_eqb p) ys) ∧
       match last ys with
       | Some root => node_ty root = Guild
       | None => node_ty c = Guild
       end).
Proof.
  induction depth as [|depth IH]; intros c p Hh; [destruct c; simpl in Hh; lia|].
  cbn [get_all_parents_upto is_parent_upto].
  destruct (get_parent c) as [[q|]|e0] eqn:Hgp.
  - pose proof (get_parent_height c q Hgp) as Hlt.
    destruct (IH q p) as (ys & e & r & Hall & Hisp & Hfound & Hok); [lia|].
    rewrite Hall. cbn [orb].
    exists (q :: ys), e.
    destruct (node_eqb p q) eqn:Heq.
    + eexists. split; [done|]. split; [done|]. split; [done|].
      intros ->. simpl. rewrite Heq. split; [done|].
      destruct (Hok eq_refl) as [_ Hlast].
      destruct ys as [|y ys]; [done|]. simpl. simpl in Hlast.
      by rewrite last_cons in *; destruct (last ys).
    + exists r. split; [done|]. split; [done|]. split.
      * simpl. rewrite Heq. simpl. apply Hfound.
      * intros ->. simpl. rewrite Heq. simpl.
        destruct (Hok eq_refl) as [Hr Hlast]. split; [done|].
        rewrite last_cons. by destruct (last ys).
  - exists [], None. eexists. split; [done|]. split; [done|]. split; [done|].
    intros _. split; [done|]. simpl.
    destruct c as [ty id cat gu par]. unfold get_parent in Hgp. simpl in *.
    destruct ty; simpl in Hgp; try done; by destruct cat, gu, par.
  - exists [], (Some (in_generator e0)). eexists.
    split; [done|]. split; [done|]. split; done.
Qed.

(** X23: [include_root=False] leaves out exactly the guilds among the
    parents, and [include_this=True] puts the channel itself in front,
    even when it is a guild; the exception a generator ends with does not
    depend on either flag. *)
Theorem parents_without_root depth : ∀ c ys e,
  get_all_parents_upto depth c false true = Some (ys, e) →
  get_all_parents_upto depth c false false =
    Some (filter (fun n => node_ty n ≠ Guild) ys, e) ∧
  get_all_parents_upto depth c true true = Some (c :: ys, e) ∧
  get_all_parents_upto depth c true false =
    Some (c :: filter (fun n => node_ty n ≠ Guild) ys, e).
Proof.
  induction depth as [|depth IH]; intros c ys e H; [done|].
  cbn [get_all_parents_upto] in *.
  destruct (get_parent c) as [[q|]|e0] eqn:Hgp.
  - destruct (get_all_parents_upto depth q false true) as [[ys' e']|] eqn:Hq; [|done].
    cbn [orb] in H. injection H as <- <-.
    destruct (IH q ys' e' Hq) as (Hf & _ & _). rewrite Hf. cbn [orb].
    destruct (decide (node_ty q = Guild)) as [Hg|Hg].
    + rewrite bool_decide_eq_true_2 by done. cbn [negb].
      rewrite filter_cons_False by (by intros ?). done.
    + rewrite bool_decide_eq_false_2 by done. cbn [negb].
      rewrite filter_cons_True by done. done.
  - injection H as <- <-. done.
  - injection H as <- <-. done.
Qed.

End ChannelHierarchyFacts.

(** * util/confirmation_view.py *)

Lemma confirmation_settled_stays evs : ∀ v,
  ConfirmationView._future v ≠ ConfirmationView.Pending →
  (ConfirmationView.run evs v).1 =
    replicate (length evs) (Some ConfirmationView.InvalidStateError) ∧
  ConfirmationView._future (ConfirmationView.run evs v).2 = ConfirmationView._future v ∧
  ConfirmationView.stop_called (ConfirmationView.run evs v).2 =
    ConfirmationView.stop_called v.
Proof.
  induction evs as [|ev evs IH]; intros v Hv; [done|].
  cbn [ConfirmationView.run].
  assert (∃ v', ConfirmationView.step ev v = (Some ConfirmationView.InvalidStateError, v') ∧
                ConfirmationView._future v' = ConfirmationView._future v ∧
                ConfirmationView.stop_called v' = ConfirmationView.stop_called v)
    as (v' & -> & Hf & Hs).
  { destruct v as [[| |] s d]; [done| |];
      destruct ev; eexists; (split; [reflexivity|done]). }
  destruct (IH v') as (He & Hf' & Hs'); [congruence|].
  destruct (ConfirmationView.run evs v') as [es v''].
  simpl in *. split; [by f_equal|]. split; congruence.
Qed.

(** X24: the first of confirm, cancel and timeout decides the dialogue.
    On a fresh view the first callback returns normally and settles what
    an awaiting caller gets: [True], [False] or the [TimeoutError];
    every callback that runs after it fails with [InvalidStateError] and
    changes neither that answer nor whether [stop] has been called.
    [stop] is called by the two buttons and not by [on_timeout]. *)
Theorem first_event_decides ev evs :
  let r := ConfirmationView.run (ev :: evs) ConfirmationView.init in
  r.1 = None :: replicate (length evs) (Some ConfirmationView.InvalidStateError) ∧
  ConfirmationView.await r.2 = Some (ConfirmationView.answer_of ev) ∧
  ConfirmationView.stop_called r.2 =
    match ev with ConfirmationView.Timeout => false | _ => true end ∧
  ConfirmationView.await ConfirmationView.init = None.
Proof.
  cbn [ConfirmationView.run].
  destruct (ConfirmationView.step ev ConfirmationView.init) as [e v] eqn:Hstep.
  assert (e = None ∧
          ConfirmationView.await v = Some (ConfirmationView.answer_of ev) ∧
          ConfirmationView.stop_called v =
            match ev with ConfirmationView.Timeout => false | _ => true end ∧
          ConfirmationView._future v ≠ ConfirmationView.Pending) as (-> & Ha & Hs & Hv).
  { destruct ev; injection Hstep as <- <-; done. }
  destruct (confirmation_settled_stays evs v Hv) as (He & Hf & Hs').
  destruct (ConfirmationView.run evs v) as [es v'']. simpl in *.
  split; [by f_equal|]. split.
  - unfold ConfirmationView.await in *. by rewrite Hf.
  - split; [congruence|done].
Qed.

(** * The editor: out to a child and back *)

Section RoundTrip.

Variable classes : class_id → class_def.

Set Default Proof Using "Type".



End RoundTrip.

(** * The further properties at concrete inputs *)

Ltac in_list H :=
  simpl in H; repeat (apply elem_of_cons in H as [->|H]); [..|by apply elem_of_nil in H].

Lemma set_component_state_witness :
  pages (world_with 40%Z) !! 0 = Some closable_page ∧
  ∃ w',
    EditorPage_set_component_state 0 true (world_with 40%Z) = (Ok tt, w') ∧
    (∀ item, item ∈ children closable_page →
       ∃ it, items (world_with 40%Z) !! item = Some it ∧
             items w' !! item = Some (MkItem true (item_callback it))) ∧
    (∀ item, item ∉ children closable_page →
       items w' !! item = items (world_with 40%Z) !! item) ∧
    pages w' = pages (world_with 40%Z) ∧
    trace w' = trace (world_with 40%Z) ++ update_message_events (world_with 40%Z) 0.
Proof.
  assert (pages (world_with 40%Z) !! 0 = Some closable_page) as Hp by by_compute.
  split; [exact Hp|].
  apply (set_component_state_sets_all 0 true closable_page (world_with 40%Z) Hp).
  intros item H. in_list H; eexists; by_compute.
Defined.



Lemma switch_to_type_witness :
  pages (world_with 10%Z) !! 0 = Some menu_page ∧
  SwitchablePage_switch demo_classes 0 (TType 20%Z) (world_with 10%Z) =
    (Raised TypeError, world_with 10%Z) ∧
  SwitchablePage_switch demo_classes 0 (TType 40%Z) (world_with 10%Z) =
    (Ok 1,
     add_trace [EvUpdate 1; EvUpdateMessage 1; EvMessageEdit 7 1]
       (constructed demo_classes 40%Z (Some 7) None None (world_with 10%Z))).
Proof.
  assert (pages (world_with 10%Z) !! 0 = Some menu_page) as Hp by by_compute.
  split; [exact Hp|]. split.
  - exact (switch_to_type demo_classes 0 menu_page 20%Z (world_with 10%Z) Hp).
  - exact (switch_to_type demo_classes 0 menu_page 40%Z (world_with 10%Z) Hp).
Defined.







Lemma limited_list_keeps_bound_witness :
  (LimitedList.len (LimitedList.init [1; 2] 4) ≤ LimitedList.size (LimitedList.init [1; 2] 4))%Z ∧
  (LimitedList.len (LimitedList.append (LimitedList.init [1; 2] 4) 9).2 ≤ 4)%Z ∧
  (LimitedList.len (LimitedList.extend (LimitedList.init [1; 2] 4) [7; 8; 9]).2 ≤ 4)%Z ∧
  LimitedList.size (LimitedList.append (LimitedList.init [1; 2] 4) 9).2 = 4%Z ∧
  LimitedList.size (LimitedList.extend (LimitedList.init [1; 2] 4) [7; 8; 9]).2 = 4%Z.
Proof.
  assert (LimitedList.len (LimitedList.init [1; 2] 4) ≤
          LimitedList.size (LimitedList.init [1; 2] 4))%Z as Hb by (vm_compute; discriminate).
  split; [exact Hb|].
  exact (limited_list_keeps_bound (LimitedList.init [1; 2] 4) 9 [7; 8; 9] Hb).
Defined.

Lemma from_int_reads_layout_witness :
  Snowflake.from_int (Snowflake.pack (Snowflake.Raw 175928847299 1 31 7)) =
    Snowflake.Raw 175928847299 1 31 7.
Proof. apply from_int_reads_layout; lia. Defined.

Lemma to_int_shifts_by_the_sum_witness :
  Snowflake.to_int (Snowflake.Raw 5 1 2 3) = Ok (5 * 2 ^ (51 + 1 + 2 + 3))%Z ∧
  Snowflake.from_int (5 * 2 ^ (51 + 1 + 2 + 3)) =
    Snowflake.Raw (5 * 2 ^ (29 + 1 + 2 + 3)) 0 0 0.
Proof. apply to_int_shifts_by_the_sum; lia. Defined.

Lemma generator_counts_witness :
  (Snowflake.generate_raws (Snowflake.init None 37) [100; 101; 105]%Z).1 !! 2 =
    Some (Snowflake.Raw 105 5 31 2) ∧
  Snowflake.increment (Snowflake.Raw 105 5 31 2) = (Z.of_nat 2 mod 4096)%Z ∧
  Snowflake.worker_id (Snowflake.Raw 105 5 31 2) = (37 mod 32)%Z ∧
  Snowflake.process_id (Snowflake.Raw 105 5 31 2) = default 31%Z None ∧
  [100; 101; 105]%Z !! 2 = Some (Snowflake.timestamp (Snowflake.Raw 105 5 31 2)).
Proof.
  assert ((Snowflake.generate_raws (Snowflake.init None 37) [100; 101; 105]%Z).1 !! 2 =
            Some (Snowflake.Raw 105 5 31 2)) as Hk by by_compute.
  split; [exact Hk|].
  exact (generator_counts_mod_4096 None 37 [100; 101; 105]%Z 2 _ Hk).
Defined.

(** A class whose constructor takes a number and keeps it. *)
Lemma singleton_returns_first_instance_witness :
  Singleton.call (fun (_ : Z) (n : nat) => Ok n) 1%Z 7 (Singleton.State ∅ ∅ 0) =
    (Ok 0, Singleton.State {[1%Z := 0]} {[0 := 7]} 1) ∧
  ∀ args', Singleton.call (fun (_ : Z) (n : nat) => Ok n) 1%Z args'
             (Singleton.State {[1%Z := 0]} {[0 := 7]} 1) =
           (Ok 0, Singleton.State {[1%Z := 0]} {[0 := 7]} 1).
Proof.
  assert (Singleton.call (fun (_ : Z) (n : nat) => Ok n) 1%Z 7 (Singleton.State ∅ ∅ 0) =
            (Ok 0, Singleton.State {[1%Z := 0]} {[0 := 7]} 1)) as Hc by by_compute.
  split; [exact Hc|].
  exact (singleton_returns_first_instance _ 1%Z 7 _ 0 _ Hc).
Defined.

Lemma database_is_constructed_once_witness :
  Singleton.instance_cache (Singleton.State (Obj := Singleton.AsyncDatabase string) ∅ ∅ 0)
    !! 1%Z = None ∧
  Singleton.call (Singleton.AsyncDatabase_init demo_create_engine) 1%Z None
      (Singleton.State ∅ ∅ 0) =
    (Raised RuntimeError, Singleton.State ∅ ∅ 0) ∧
  ∃ o st',
    Singleton.call (Singleton.AsyncDatabase_init demo_create_engine) 1%Z (Some "sqlite://")
      (Singleton.State ∅ ∅ 0) = (Ok o, st') ∧
    Singleton.instances st' !! o = Some (Singleton.Database "sqlite://" "sqlite://" true) ∧
    ∀ (create' : string → outcome string) url',
      Singleton.call (Singleton.AsyncDatabase_init create') 1%Z url' st' = (Ok o, st').
Proof.
  assert (Singleton.instance_cache
            (Singleton.State (Obj := Singleton.AsyncDatabase string) ∅ ∅ 0)
            !! 1%Z = None) as Hc by by_compute.
  split; [exact Hc|].
  exact (database_is_constructed_once demo_create_engine 1%Z _ "sqlite://" Hc).
Defined.

Lemma preload_reverses_witness :
  CoroutineTools.preload 4 [1; 2; 3] = Some [3; 2; 1].
Proof. apply (preload_reverses [1; 2; 3] 4). simpl. lia. Defined.

Lemma traversals_yield_the_same_witness :
  ChannelHierarchy.supported demo_guild = true ∧
  ∃ ys zs,
    ChannelHierarchy.get_all_subchannels demo_guild false = (ys, None) ∧
    ChannelHierarchy.get_all_subchannels demo_guild true = (zs, None) ∧
    ys ≡ₚ zs ∧
    ∀ x, ChannelHierarchy.is_subchannel x demo_guild =
         Ok (existsb (ChannelHierarchy.channel_eqb x) ys).
Proof.
  assert (ChannelHierarchy.supported demo_guild = true) as Hs by by_compute.
  split; [exact Hs|]. exact (traversals_yield_the_same demo_guild Hs).
Defined.

Lemma parents_end_at_guild_witness :
  ChannelHierarchy.height up_thread ≤ 4 ∧
  ∃ ys e r,
    ChannelHierarchy.get_all_parents_upto 4 up_thread false true = Some (ys, e) ∧
    ChannelHierarchy.is_parent_upto 4 up_category up_thread = Some r ∧
    (existsb (ChannelHierarchy.node_eqb up_category) ys = true → r = Ok true) ∧
    (e = None →
       r = Ok (existsb (ChannelHierarchy.node_eqb up_category) ys) ∧
       match last ys with
       | Some root => ChannelHierarchy.node_ty root = ChannelHierarchy.Guild
       | None => ChannelHierarchy.node_ty up_thread = ChannelHierarchy.Guild
       end).
Proof.
  assert (ChannelHierarchy.height up_thread ≤ 4) as Hh by (vm_compute; lia).
  split; [exact Hh|]. exact (parents_end_at_guild 4 up_thread up_category Hh).
Defined.

Lemma parents_without_root_witness :
  ChannelHierarchy.get_all_parents_upto 4 up_thread false true =
    Some ([up_text; up_category; up_guild], None) ∧
  ChannelHierarchy.get_all_parents_upto 4 up_thread false false =
    Some (filter (fun n => ChannelHierarchy.node_ty n ≠ ChannelHierarchy.Guild)
            [up_text; up_category; up_guild], None) ∧
  ChannelHierarchy.get_all_parents_upto 4 up_thread true true =
    Some (up_thread :: [up_text; up_category; up_guild], None) ∧
  ChannelHierarchy.get_all_parents_upto 4 up_thread true false =
    Some (up_thread ::
          filter (fun n => ChannelHierarchy.node_ty n ≠ ChannelHierarchy.Guild)
            [up_text; up_category; up_guild], None).
Proof.
  assert (ChannelHierarchy.get_all_parents_upto 4 up_thread false true =
            Some ([up_text; up_category; up_guild], None)) as H by by_compute.
  split; [exact H|]. exact (parents_without_root 4 up_thread _ None H).
Defined.
